(** * EnclaveBuilderModal: the enclave builder dialog of the enclave manager

    A shallow embedding of
    [emui/enclaves/components/modals/EnclaveBuilderModal.tsx]:
    the modal's run controller ([handleRun], the close wiring, the initial
    graph state) and the visualiser it embeds (node-add handlers, the
    dependency-edge effect, the Dagre layout adapter).

    JavaScript objects used as dictionaries are finite maps ([gmap]), a
    [Set] is a [gset], arrays are lists, a [number] is an IEEE 754
    double ([float]); only the insertion counter, which counts clicks, is
    kept as an integer.  React state is threaded explicitly; the
    asynchronous handler is a command tree that an environment (backend,
    ref cell) answers. *)

From stdpp Require Import gmap strings list fin_maps.
From Corelib Require Import PrimFloat.

Local Open Scope Z_scope.

(** ** Values shared by both components *)

(** [Result] of the UI component library: [isErr], [error], [value]. *)
Inductive Result (A E : Type) : Type :=
| Ok (value : A)
| Err (error : E).
Arguments Ok {A E} value.
Arguments Err {A E} error.

(** Modelled from the spec: [isDefined] of kurtosis-ui-components, whose
    source is not at hand; a value is defined when it is neither [null]
    nor [undefined] ("only if the export handle is mounted", "if no
    pre-existing deployment reference was supplied"). *)
Definition isDefined {A : Type} (it : option A) : bool :=
  match it with
  | Some _ => true
  | None => false
  end.

(** The double that holds a positive integer; exact below 2^53. *)
Fixpoint pos2float (p : positive) : float :=
  match p with
  | xH => 1%float
  | xO p => (2 * pos2float p)%float
  | xI p => (2 * pos2float p + 1)%float
  end.

(** The double that holds an integer, as the insertion counter is held
    in [insertOffset.current]; exact while the counter is below 2^53. *)
Definition Z2float (z : Z) : float :=
  match z with
  | Z0 => 0%float
  | Zpos p => pos2float p
  | Zneg p => (- pos2float p)%float
  end.

(** reactflow's [XYPosition] and viewport. *)
Record XYPosition : Type := { x : float; y : float }.

Record Viewport : Type := { vx : float; vy : float; zoom : float }.

(** What Dagre writes on the object that is a node's label. *)
Record DagreLabel : Type := {
  label_x : float;
  label_y : float;
  label_rank : float;
}.

Record EdgeStyle : Type := { strokeWidth : string }.

(** reactflow's [Edge], with the fields the component writes. *)
Record Edge : Type := {
  edge_id : string;
  source : string;
  target : string;
  animated : option bool;
  style : option EdgeStyle;
}.

(** The state owned by the modal: [useState(false)] and [useState<string>()]. *)
Record ModalState : Type := { isLoading : bool; error : option string }.

Definition initialModalState : ModalState :=
  {| isLoading := false; error := None |}.

Definition setIsLoading (b : bool) (st : ModalState) : ModalState :=
  {| isLoading := b; error := error st |}.

Definition setError (e : option string) (st : ModalState) : ModalState :=
  {| isLoading := isLoading st; error := e |}.

(** The imperative handle the visualiser exposes through its ref. *)
Record VisualiserImperativeAttributes : Type := { getStarlark : unit -> string }.

(** ** Collaborators outside the component *)

(** Types that the component only passes around: those declared in
    [../../types] and [./enclaveBuilder/VariableContextProvider], the
    log stream of the enclaves context, what a rejected promise carries,
    the payload of reactflow's [Node<any>], and Dagre's graph object. *)
Class ExternalTypes : Type := {
  EnclaveFullInfo : Type;
  LogsIterator : Type;
  Cause : Type;
  KurtosisPort : Type;
  KurtosisEnvironmentVar : Type;
  KurtosisFileMount : Type;
  Any : Type;
  DagreGraph : Type;
}.

Section Data.

Context {T : ExternalTypes}.

(** [KurtosisNodeData]: the two shapes built by the add handlers. *)
Inductive KurtosisNodeData : Type :=
| ServiceData (serviceName image : string) (ports : list KurtosisPort)
    (env : list KurtosisEnvironmentVar) (files : list KurtosisFileMount)
    (isValid : bool)
| ArtifactData (artifactName : string) (files : gmap string string)
    (isValid : bool).

Definition isValid (d : KurtosisNodeData) : bool :=
  match d with
  | ServiceData _ _ _ _ _ v => v
  | ArtifactData _ _ v => v
  end.

(** reactflow's [Node<any>], with the fields the component writes.
    [dagre] stands for the own properties [x], [y] and [rank] that a
    node object carries once Dagre has used it as a label; a node that
    has never been laid out has none. *)
Record Node : Type := {
  node_id : string;
  position : XYPosition;
  width : option float;
  type : option string;
  node_data : Any;
  dagre : option DagreLabel;
}.

Record GraphState : Type := {
  gs_nodes : list Node;
  gs_edges : list Edge;
  gs_data : gmap string KurtosisNodeData;
}.

(** What the [catch] of [handleRun] can receive: the [TypeError] of a
    dereferenced [null], or what the backend call rejected with. *)
Inductive Thrown : Type :=
| TypeErrorOfNull
| Rejected (cause : Cause).

Record CreateEnclaveResponse : Type := {
  enclaveInfo : option EnclaveFullInfo;
}.

(** The options of [g.setGraph]. *)
Record GraphLabel : Type := { rankdir : string; ranksep : Z }.

End Data.

(** The functions the component imports: [shortenedUuid] is the field
    read off an enclave, [emptyObject] the object literal passed as a
    new node's payload; [getInitialGraphStateFromEnclave] and
    [getNodeDependencies] come from [./enclaveBuilder/utils],
    [stringifyError] from kurtosis-ui-components.  The last five are the
    operations the layout adapter calls on Dagre's graph.  [setNode]
    registers the node object itself as the label of its identifier, and
    [g_node] is what the layout has written on the label that
    [g.node(id)] returns. *)
Class Collaborators {T : ExternalTypes} : Type := {
  shortenedUuid : EnclaveFullInfo -> string;
  emptyObject : Any;
  getInitialGraphStateFromEnclave :
    option EnclaveFullInfo -> Result GraphState string;
  getNodeDependencies :
    gmap string KurtosisNodeData -> gmap string (gset string);
  stringifyError : Thrown -> string;
  setGraph : GraphLabel -> DagreGraph -> DagreGraph;
  setEdge : string -> string -> DagreGraph -> DagreGraph;
  setNode : string -> Node -> DagreGraph -> DagreGraph;
  Dagre_layout : DagreGraph -> DagreGraph;
  g_node : DagreGraph -> string -> DagreLabel;
}.

Section EnclaveBuilder.

Context {T : ExternalTypes} {C : Collaborators}.

(** ** The modal's initial graph state (the [useMemo] of lines 62-82) *)

(** [nodes.some((node) => node.id === id)]. *)
Definition some_node_has_id (nodes : list Node) (id : string) : bool :=
  existsb (fun node => bool_decide (node_id node = id)) nodes.

(** [Object.entries(d).filter(...).reduce((acc, [id, data]) =>
    ({ ...acc, [id]: data }), {})]. *)
Definition filterData (nodes : list Node) (d : gmap string KurtosisNodeData)
  : gmap string KurtosisNodeData :=
  foldl (fun acc '(id, data) => <[id := data]> acc) ∅
    (List.filter (fun '(id, data) => some_node_has_id nodes id)
       (map_to_list d)).

(** The memo both computes the initial state and, on a parse failure,
    calls [setError]; the second component is that call's argument. *)
Definition initialGraphState (existingEnclave : option EnclaveFullInfo)
  : GraphState * option string :=
  let parseResult := getInitialGraphStateFromEnclave existingEnclave in
  match parseResult with
  | Err e =>
      ({| gs_nodes := []; gs_edges := []; gs_data := ∅ |}, Some e)
  | Ok value =>
      ({| gs_nodes := gs_nodes value;
          gs_edges := gs_edges value;
          gs_data := filterData (gs_nodes value) (gs_data value) |}, None)
  end.

(** ** The layout adapter *)

(** The node object after Dagre has written on it as a label. *)
Definition writeLabel (l : DagreLabel) (node : Node) : Node :=
  {| node_id := node_id node;
     position := position node;
     width := width node;
     type := type node;
     node_data := node_data node;
     dagre := Some l |}.

(** The input node objects after [Dagre.layout(g)].  [g.setNode(node.id,
    node)] makes the node object itself the label of its identifier, a
    later node with the same identifier taking the place of an earlier
    one; the layout writes [x], [y] and [rank] on each label, so it is
    the last node of each identifier that is changed in place. *)
Fixpoint labelledInPlace (g : DagreGraph) (nodes : list Node) : list Node :=
  match nodes with
  | [] => []
  | node :: rest =>
      (if some_node_has_id rest (node_id node) then node
       else writeLabel (g_node g (node_id node)) node)
      :: labelledInPlace g rest
  end.

(** [const { x, y } = g.node(node.id); return { ...node, position: { x, y } }]:
    the spread copies the node object as it is after the layout. *)
Definition withPosition (g : DagreGraph) (node : Node) : Node :=
  let label := g_node g (node_id node) in
  {| node_id := node_id node;
     position := {| x := label_x label; y := label_y label |};
     width := width node;
     type := type node;
     node_data := node_data node;
     dagre := dagre node |}.

(** What a call of [getLayoutedElements] leaves behind: the shared
    graph, the input node objects, and the value returned. *)
Record Layouted : Type := {
  graphAfter : DagreGraph;
  inputsAfter : list Node;
  returned : list Node * list Edge;
}.

(** [getLayoutedElements]; the module-level graph [g] is shared by all
    calls, so it is threaded through. *)
Definition getLayoutedElements (g : DagreGraph) (nodes : list Node)
    (edges : list Edge) : Layouted :=
  if (length nodes =? 0)%nat then
    {| graphAfter := g; inputsAfter := nodes; returned := (nodes, edges) |}
  else
    let g := setGraph {| rankdir := "LR"; ranksep := 100 |} g in
    let g := foldl (fun g edge => setEdge (source edge) (target edge) g) g edges in
    let g := foldl (fun g node => setNode (node_id node) node g) g nodes in
    let g := Dagre_layout g in
    let nodes := labelledInPlace g nodes in
    {| graphAfter := g;
       inputsAfter := nodes;
       returned := (map (withPosition g) nodes, edges) |}.

(** ** The visualiser *)

(** [data] is the variable context's map, [insertOffset] the
    [useRef(0)] counter, [viewport] what reactflow's [getViewport]
    returns, [nodes] and [edges] the two reactflow stores. *)
Record VisualiserState : Type := {
  data : gmap string KurtosisNodeData;
  insertOffset : Z;
  viewport : Viewport;
  nodes : list Node;
  edges : list Edge;
}.

Definition mountVisualiser (initialNodes : list Node)
    (initialEdges : list Edge) (initialData : gmap string KurtosisNodeData)
    (v : Viewport) : VisualiserState :=
  {| data := initialData; insertOffset := 0; viewport := v;
     nodes := initialNodes; edges := initialEdges |}.

(** Modelled from the spec: [updateData] of the variable context
    provider, whose source is not at hand ("register a default,
    kind-appropriate data record for that identifier in the shared
    variable map"). *)
Definition updateData (id : string) (d : KurtosisNodeData)
    (st : VisualiserState) : VisualiserState :=
  {| data := <[id := d]> (data st); insertOffset := insertOffset st;
     viewport := viewport st; nodes := nodes st; edges := edges st |}.

(** reactflow's [addNodes] on a controlled store: the change goes
    through [onNodesChange], which puts an added node in front of the
    ones already there. *)
Definition addNodes (n : Node) (st : VisualiserState) : VisualiserState :=
  {| data := data st; insertOffset := insertOffset st;
     viewport := viewport st; nodes := n :: nodes st; edges := edges st |}.

Definition setNodes (ns : list Node) (st : VisualiserState) : VisualiserState :=
  {| data := data st; insertOffset := insertOffset st;
     viewport := viewport st; nodes := ns; edges := edges st |}.

(** [setEdges] with an updater function of the previous edge list. *)
Definition setEdges (f : list Edge -> list Edge) (st : VisualiserState)
  : VisualiserState :=
  {| data := data st; insertOffset := insertOffset st;
     viewport := viewport st; nodes := nodes st; edges := f (edges st) |}.

Definition setInsertOffset (c : Z) (st : VisualiserState) : VisualiserState :=
  {| data := data st; insertOffset := c;
     viewport := viewport st; nodes := nodes st; edges := edges st |}.

Definition setViewport (v : Viewport) (st : VisualiserState) : VisualiserState :=
  {| data := data st; insertOffset := insertOffset st;
     viewport := v; nodes := nodes st; edges := edges st |}.

(** [getNewNodePosition]: the counter is bumped before it is read. *)
Definition getNewNodePosition (st : VisualiserState)
  : XYPosition * VisualiserState :=
  let viewport := viewport st in
  let st := setInsertOffset (insertOffset st + 1) st in
  ({| x := (- vx viewport + Z2float (insertOffset st) * 20 + 400)%float;
      y := (- vy viewport + Z2float (insertOffset st) * 20)%float |}, st).

Definition defaultServiceData : KurtosisNodeData :=
  ServiceData "" "" [] [] [] false.

Definition defaultArtifactData : KurtosisNodeData :=
  ArtifactData "" ∅ false.

(** [handleAddServiceNode]; [id] is what [uuidv4()] returned. *)
Definition handleAddServiceNode (id : string) (st : VisualiserState)
  : VisualiserState :=
  let st := updateData id defaultServiceData st in
  let '(pos, st) := getNewNodePosition st in
  addNodes {| node_id := id; position := pos; width := Some 600%float;
              type := Some "serviceNode"; node_data := emptyObject;
              dagre := None |} st.

(** [handleAddArtifactNode]; [id] is what [uuidv4()] returned. *)
Definition handleAddArtifactNode (id : string) (st : VisualiserState)
  : VisualiserState :=
  let st := updateData id defaultArtifactData st in
  let '(pos, st) := getNewNodePosition st in
  addNodes {| node_id := id; position := pos; width := Some 600%float;
              type := Some "artifactNode"; node_data := emptyObject;
              dagre := None |} st.

(** The edge built for one dependency: [from] is the node depended on. *)
Definition dependencyEdge (to from : string) : Edge :=
  {| edge_id := from +:+ "-" +:+ to;
     source := from;
     target := to;
     animated := Some true;
     style := Some {| strokeWidth := "3px" |} |}.

(** The flattening of [Object.entries(deps)]: one edge per member of
    each entry's set. *)
Definition flattenDependencies (deps : gmap string (gset string))
  : list Edge :=
  map_to_list deps ≫= (fun '(to, froms) =>
    dependencyEdge to <$> elements froms).

(** The [useEffect] of lines 246-258, run when [data] has changed. *)
Definition edgeSyncEffect (st : VisualiserState) : VisualiserState :=
  setEdges (fun prevState => flattenDependencies (getNodeDependencies (data st))) st.

(** [onMove={() => (insertOffset.current = 1)}]; reactflow has moved
    the viewport to [v]. *)
Definition onMove (v : Viewport) (st : VisualiserState) : VisualiserState :=
  setInsertOffset 1 (setViewport v st).

(** reactflow's [fitView]: with no node on the canvas, or when it
    cannot fit ([fitted] is [None]), it leaves the view alone; otherwise
    it moves the viewport to the fitted one, which fires [onMove]. *)
Definition fitView (fitted : option Viewport) (st : VisualiserState)
  : VisualiserState :=
  match nodes st, fitted with
  | _ :: _, Some v => onMove v st
  | _, _ => st
  end.

(** [onLayout]; [fitted] is the viewport that the [fitView] of the
    animation frame it requests arrives at. *)
Definition onLayout (g : DagreGraph) (fitted : option Viewport)
    (st : VisualiserState) : DagreGraph * VisualiserState :=
  let layouted := getLayoutedElements g (nodes st) (edges st) in
  let st := setNodes (returned layouted).1 st in
  let st := setEdges (fun _ => (returned layouted).2) st in
  (graphAfter layouted, fitView fitted st).

(** What the user does to the visualiser.  An add action carries the
    identifier that its call of [uuidv4()] returned. *)
Inductive Action : Type :=
| AddServiceNode (uuid : string)
| AddArtifactNode (uuid : string)
| Move (v : Viewport).

(** One action followed by the effects of the render it causes: the
    add handlers change [data], so the edge effect runs after them. *)
Definition dispatch (st : VisualiserState) (a : Action) : VisualiserState :=
  match a with
  | AddServiceNode id => edgeSyncEffect (handleAddServiceNode id st)
  | AddArtifactNode id => edgeSyncEffect (handleAddArtifactNode id st)
  | Move v => onMove v st
  end.

Definition dispatchAll (st : VisualiserState) (acts : list Action)
  : VisualiserState :=
  foldl dispatch st acts.

Definition isAdd (a : Action) : bool :=
  match a with
  | Move _ => false
  | _ => true
  end.




(** ** The modal's run controller *)

(** The commands a handler of the modal issues, in continuation style.
    The two backend calls are awaited: the continuation receives what
    the promise settled to.  [ReadRef] reads [visualiserRef.current]. *)
Inductive Prog : Type :=
| Return
| SetError (e : option string) (k : Prog)
| SetIsLoading (b : bool) (k : Prog)
| ReadRef (k : option VisualiserImperativeAttributes -> Prog)
| CreateEnclave (name logLevel : string) (flag : bool)
    (k : Result CreateEnclaveResponse string -> Prog)
| RunStarlarkScript (enclave : EnclaveFullInfo) (script : string)
    (k : Result LogsIterator Thrown -> Prog)
| OnClose (k : Prog)
| Navigate (path : string) (logs : LogsIterator) (k : Prog).

(** A template literal prints a missing value as [undefined]. *)
Definition interpolate (s : option string) : string :=
  match s with
  | Some s => s
  | None => "undefined"
  end.

(** Lines 110-121 of [handleRun]: the guard on [enclave] and the
    [try]/[catch] around the run.  Dereferencing a [null] ref inside
    the [try] throws, and the [catch] reports it like a rejection. *)
Definition runOnEnclave (enclave : option EnclaveFullInfo)
    (enclaveUUID : option string) : Prog :=
  match enclave with
  | None =>
      SetError (Some "Cannot trigger starlark run as enclave info cannot be found")
        Return
  | Some enclave =>
      ReadRef (fun current =>
        match current with
        | None => SetError (Some (stringifyError TypeErrorOfNull)) Return
        | Some handle =>
            RunStarlarkScript enclave (getStarlark handle tt) (fun settled =>
              match settled with
              | Ok logsIterator =>
                  OnClose
                    (Navigate ("/enclave/" +:+ interpolate enclaveUUID +:+ "/logs")
                       logsIterator Return)
              | Err thrown => SetError (Some (stringifyError thrown)) Return
              end)
        end)
  end.

(** [handleRun]. *)
Definition handleRun (existingEnclave : option EnclaveFullInfo) : Prog :=
  ReadRef (fun current =>
    if negb (isDefined current) then
      SetError (Some "Cannot run when no services are defined") Return
    else
      SetError None
        (let enclave := existingEnclave in
         let enclaveUUID := shortenedUuid <$> existingEnclave in
         if negb (isDefined existingEnclave) then
           SetIsLoading true
             (CreateEnclave "" "info" true (fun newEnclave =>
                SetIsLoading false
                  match newEnclave with
                  | Err e =>
                      SetError (Some ("Could not create enclave, got: " +:+ e))
                        Return
                  | Ok value =>
                      match enclaveInfo value with
                      | None =>
                          SetError
                            (Some "Did not receive enclave info when running createEnclave")
                            Return
                      | Some info =>
                          runOnEnclave (Some info) (Some (shortenedUuid info))
                      end
                  end))
         else runOnEnclave enclave enclaveUUID)).

(** [onClose={!isLoading ? onClose : () => null}] of the [Modal]. *)
Definition modalOnClose (st : ModalState) : Prog :=
  if negb (isLoading st) then OnClose Return else Return.

(** The footer button [<Button onClick={onClose} isDisabled={isLoading}>]:
    a disabled button does not fire its click handler. *)
Definition closeButtonClick (st : ModalState) : Prog :=
  if isLoading st then Return else OnClose Return.

(** [closeOnEsc={false}]. *)
Definition closeOnEsc : bool := false.

(** The ways the user can try to dismiss the dialog.  The header's
    [ModalCloseButton] and a click on the overlay call the [Modal]'s
    [onClose]; the escape key does so only when [closeOnEsc] is set. *)
Inductive Dismissal : Type :=
| HeaderCloseButton
| OverlayClick
| EscapeKey
| FooterCloseButton.

Definition dismiss (d : Dismissal) (st : ModalState) : Prog :=
  match d with
  | HeaderCloseButton | OverlayClick => modalOnClose st
  | EscapeKey => if closeOnEsc then modalOnClose st else Return
  | FooterCloseButton => closeButtonClick st
  end.

(** *** Running a handler against an environment *)

(** What the handler's surroundings answer: the ref cell (indexed by
    the number of awaits that have resumed, since the visualiser may
    re-render or unmount while a promise is pending) and the two
    backend operations of the enclaves context. *)
Record Env : Type := {
  visualiserRef : nat -> option VisualiserImperativeAttributes;
  createEnclave : string -> string -> bool -> Result CreateEnclaveResponse string;
  runStarlarkScript : EnclaveFullInfo -> string -> Result LogsIterator Thrown;
}.

(** What an observer sees: the calls that leave the component.  A
    backend call records the modal state that is rendered while its
    promise is pending, and what it settled to. *)
Inductive Event : Type :=
| CreateEnclaveCall (name logLevel : string) (flag : bool)
    (pending : ModalState) (settled : Result CreateEnclaveResponse string)
| RunStarlarkScriptCall (enclave : EnclaveFullInfo) (script : string)
    (pending : ModalState) (settled : Result LogsIterator Thrown)
| OnCloseCall
| NavigateCall (path : string) (logs : LogsIterator).

Fixpoint exec (E : Env) (p : Prog) (awaits : nat) (st : ModalState)
  : ModalState * list Event :=
  match p with
  | Return => (st, [])
  | SetError e k => exec E k awaits (setError e st)
  | SetIsLoading b k => exec E k awaits (setIsLoading b st)
  | ReadRef k => exec E (k (visualiserRef E awaits)) awaits st
  | CreateEnclave name logLevel flag k =>
      let settled := createEnclave E name logLevel flag in
      let '(st', tr) := exec E (k settled) (S awaits) st in
      (st', CreateEnclaveCall name logLevel flag st settled :: tr)
  | RunStarlarkScript enclave script k =>
      let settled := runStarlarkScript E enclave script in
      let '(st', tr) := exec E (k settled) (S awaits) st in
      (st', RunStarlarkScriptCall enclave script st settled :: tr)
  | OnClose k =>
      let '(st', tr) := exec E k awaits st in (st', OnCloseCall :: tr)
  | Navigate path logs k =>
      let '(st', tr) := exec E k awaits st in (st', NavigateCall path logs :: tr)
  end.

(** One click on Run. *)
Definition clickRun (E : Env) (existingEnclave : option EnclaveFullInfo)
    (st : ModalState) : ModalState * list Event :=
  exec E (handleRun existingEnclave) 0 st.

Definition isCreateEnclaveCall (ev : Event) : bool :=
  match ev with
  | CreateEnclaveCall _ _ _ _ _ => true
  | _ => false
  end.

Definition isRunStarlarkScriptCall (ev : Event) : bool :=
  match ev with
  | RunStarlarkScriptCall _ _ _ _ => true
  | _ => false
  end.

Definition isBackendCall (ev : Event) : bool :=
  isCreateEnclaveCall ev || isRunStarlarkScriptCall ev.

(** The modal state on screen while a backend call is pending. *)
Definition pendingState (ev : Event) : option ModalState :=
  match ev with
  | CreateEnclaveCall _ _ _ st _ => Some st
  | RunStarlarkScriptCall _ _ st _ => Some st
  | _ => None
  end.

Definition isOnCloseCall (ev : Event) : bool :=
  match ev with
  | OnCloseCall => true
  | _ => false
  end.

(** Whether a dismissal attempted in state [st] reaches the [onClose]
    prop of the modal. *)
Definition closes (E : Env) (d : Dismissal) (st : ModalState) : bool :=
  existsb isOnCloseCall (exec E (dismiss d st) 0 st).2.

End EnclaveBuilder.

(** ** The components put together *)

(** [generateStarlarkFromGraph] of [./enclaveBuilder/utils], called by the
    handle the visualiser exports. *)
Class Generator {T : ExternalTypes} : Type := {
  generateStarlarkFromGraph :
    list Node -> list Edge -> gmap string KurtosisNodeData ->
    option EnclaveFullInfo -> string;
}.

Section Composition.

Context {T : ExternalTypes} {C : Collaborators} {G : Generator}.

(** The [useImperativeHandle] of lines 260-268: the handle closes over the
    visualiser's current nodes, edges and data and over the
    [existingEnclave] prop. *)
Definition exportHandle (existingEnclave : option EnclaveFullInfo)
    (st : VisualiserState) : VisualiserImperativeAttributes :=
  {| getStarlark := fun _ =>
       generateStarlarkFromGraph (nodes st) (edges st) (data st)
         existingEnclave |}.

(** Everything the toolbar and the canvas let the user do: the actions
    above and the Do Layout button, with the viewport its refit arrives
    at. *)
Inductive UserEvent : Type :=
| Act (a : Action)
| DoLayout (fitted : option Viewport).

(** One user event on the visualiser and the module-level layout graph. *)
Definition step (w : DagreGraph * VisualiserState) (ev : UserEvent)
  : DagreGraph * VisualiserState :=
  match ev with
  | Act a => (w.1, dispatch w.2 a)
  | DoLayout fitted => onLayout w.1 fitted w.2
  end.

Definition stepAll (w : DagreGraph * VisualiserState) (evs : list UserEvent)
  : DagreGraph * VisualiserState :=
  foldl step w evs.

(** Mounting the modal: the memo computes the initial graph state, the
    visualiser is mounted on it and its edge effect runs once; the modal
    starts idle, with the parse error if there is one.  [v] is the
    viewport reactflow starts with. *)
Definition mountModal (existingEnclave : option EnclaveFullInfo) (v : Viewport)
  : VisualiserState * ModalState :=
  let '(init, parseError) := initialGraphState existingEnclave in
  (edgeSyncEffect
     (mountVisualiser (gs_nodes init) (gs_edges init) (gs_data init) v),
   setError parseError initialModalState).

(** The surroundings of [handleRun] when the visualiser is mounted in
    state [st] and stays so: the ref holds the exported handle. *)
Definition mountedEnv
    (backendCreate : string -> string -> bool -> Result CreateEnclaveResponse string)
    (backendRun : EnclaveFullInfo -> string -> Result LogsIterator Thrown)
    (existingEnclave : option EnclaveFullInfo) (st : VisualiserState) : Env :=
  {| visualiserRef := fun _ => Some (exportHandle existingEnclave st);
     createEnclave := backendCreate;
     runStarlarkScript := backendRun |}.

Definition isNavigateCall (ev : Event) : bool :=
  match ev with
  | NavigateCall _ _ => true
  | _ => false
  end.

End Composition.

(** ** A small concrete world

    Concrete collaborators on which the model can be run: an enclave is
    stood for by its shortened identifier, a log stream by its lines, the
    layout graph by its rank separation, whether it has been laid out,
    and the node identifiers in the order they were registered, which
    the "layout" spreads one rank separation apart. *)

Record SampleGraph : Type := {
  sg_ranksep : float;
  sg_laidOut : bool;
  sg_ids : list string;
}.

Definition emptyGraph : SampleGraph :=
  {| sg_ranksep := 0; sg_laidOut := false; sg_ids := [] |}.

Definition register (id : string) (g : SampleGraph) : SampleGraph :=
  {| sg_ranksep := sg_ranksep g;
     sg_laidOut := sg_laidOut g;
     sg_ids := if bool_decide (id ∈ sg_ids g) then sg_ids g
               else sg_ids g ++ [id] |}.

Definition sampleTypes : ExternalTypes :=
  {| EnclaveFullInfo := string;
     LogsIterator := list string;
     Cause := string;
     KurtosisPort := Z;
     KurtosisEnvironmentVar := string * string;
     KurtosisFileMount := string * string;
     Any := unit;
     DagreGraph := SampleGraph |}.

Definition sampleNode (id : string) : @Node sampleTypes :=
  @Build_Node sampleTypes id {| x := 7; y := 9 |} (Some 600%float)
    (Some "serviceNode") tt None.

Definition sampleService (name : string) : @KurtosisNodeData sampleTypes :=
  @ServiceData sampleTypes name "postgres" [5432] [] [] true.

(** A parse with two nodes and a data record that belongs to no node. *)
Definition sampleParse : @GraphState sampleTypes :=
  @Build_GraphState sampleTypes [sampleNode "A"; sampleNode "B"] []
    (<["A" := sampleService "a"]>
       (<["B" := sampleService "b"]>
          (<["orphan" := sampleService "o"]> ∅))).

Fixpoint indexOf (id : string) (g : list string) : Z :=
  match g with
  | [] => 0
  | id' :: g => if bool_decide (id' = id) then 0 else 1 + indexOf id g
  end.

(** [B] depends on [A] whenever both have a record. *)
Definition sampleCollaborators : @Collaborators sampleTypes :=
  @Build_Collaborators sampleTypes
    (* shortenedUuid *) (fun e => e)
    (* emptyObject *) tt
    (* getInitialGraphStateFromEnclave *)
    (fun e => match e with
              | Some "broken" => Err "cannot parse"
              | _ => Ok sampleParse
              end)
    (* getNodeDependencies *)
    (fun d => if bool_decide (is_Some (d !! "A") ∧ is_Some (d !! "B"))
              then {[ "B" := {[ "A" ]} ]} else ∅)
    (* stringifyError *)
    (fun t => match t with
              | TypeErrorOfNull => "TypeError"
              | Rejected cause => cause
              end)
    (* setGraph *)
    (fun label g => {| sg_ranksep := Z2float (ranksep label);
                       sg_laidOut := false;
                       sg_ids := sg_ids g |})
    (* setEdge *) (fun from to g => register to (register from g))
    (* setNode *) (fun id _ g => register id g)
    (* Dagre_layout *)
    (fun g => {| sg_ranksep := sg_ranksep g;
                 sg_laidOut := true;
                 sg_ids := sg_ids g |})
    (* g_node *)
    (fun g id =>
       if sg_laidOut g then
         {| label_x := (sg_ranksep g * Z2float (indexOf id (sg_ids g)))%float;
            label_y := 0;
            label_rank := Z2float (indexOf id (sg_ids g)) |}
       else {| label_x := 0; label_y := 0; label_rank := 0 |}).

Definition sampleHandle : VisualiserImperativeAttributes :=
  {| getStarlark := fun _ => "def run(plan): pass" |}.

Definition sampleCreated : @CreateEnclaveResponse sampleTypes :=
  @Build_CreateEnclaveResponse sampleTypes (Some "e42").

Definition sampleNoInfo : @CreateEnclaveResponse sampleTypes :=
  @Build_CreateEnclaveResponse sampleTypes None.

(** The handle is mounted and both backend calls succeed. *)
Definition healthyEnv : @Env sampleTypes :=
  @Build_Env sampleTypes (fun _ => Some sampleHandle)
    (fun _ _ _ => Ok sampleCreated) (fun _ _ => Ok ["line"]).

(** The visualiser is not mounted. *)
Definition unmountedEnv : @Env sampleTypes :=
  @Build_Env sampleTypes (fun _ => None)
    (fun _ _ _ => Ok sampleCreated) (fun _ _ => Ok ["line"]).

(** [createEnclave] fails. *)
Definition failingCreateEnv : @Env sampleTypes :=
  @Build_Env sampleTypes (fun _ => Some sampleHandle)
    (fun _ _ _ => Err "quota exceeded") (fun _ _ => Ok ["line"]).

(** [createEnclave] succeeds but answers without [enclaveInfo]. *)
Definition noInfoEnv : @Env sampleTypes :=
  @Build_Env sampleTypes (fun _ => Some sampleHandle)
    (fun _ _ _ => Ok sampleNoInfo) (fun _ _ => Ok ["line"]).

Definition sampleViewport : Viewport := {| vx := 0; vy := 0; zoom := 1 |}.

Definition emptyVisualiser : @VisualiserState sampleTypes :=
  @mountVisualiser sampleTypes [] [] ∅ sampleViewport.

(** A generator that only reports how many nodes and edges it was given. *)
Definition sampleGenerator : @Generator sampleTypes :=
  @Build_Generator sampleTypes
    (fun ns es _ _ =>
       if bool_decide (length ns = length es) then "balanced" else "unbalanced").

(** The handle is unmounted while [createEnclave] is pending. *)
Definition unmountingEnv : @Env sampleTypes :=
  @Build_Env sampleTypes
    (fun awaits => match awaits with O => Some sampleHandle | _ => None end)
    (fun _ _ _ => Ok sampleCreated) (fun _ _ => Ok ["line"]).

(** [runStarlarkScript] rejects. *)
Definition failingRunEnv : @Env sampleTypes :=
  @Build_Env sampleTypes (fun _ => Some sampleHandle)
    (fun _ _ _ => Ok sampleCreated)
    (fun _ _ => Err (@Rejected sampleTypes "connection lost")).

Section Properties.

Context {T : ExternalTypes} {C : Collaborators}.

(** ** Properties of the initial graph state *)

Lemma some_node_has_id_spec (ns : list Node) (id : string) :
  some_node_has_id ns id = true ↔ ∃ node, node ∈ ns ∧ node_id node = id.
Proof.
  unfold some_node_has_id. rewrite existsb_exists. split.
  - intros (node & Hin & Hid). exists node. split.
    + by apply list_elem_of_In.
    + by apply bool_decide_eq_true in Hid.
  - intros (node & Hin & Hid). exists node. split.
    + by apply list_elem_of_In.
    + by apply bool_decide_eq_true.
Qed.

Lemma NoDup_fst_filter {A} (P : string * A -> bool) (l : list (string * A)) :
  NoDup (l.*1) → NoDup ((List.filter P l).*1).
Proof.
  induction l as [|[k v] l IH]; simpl; [done|].
  rewrite NoDup_cons. intros [Hk Hl].
  destruct (P (k, v)); simpl; [|by apply IH].
  apply NoDup_cons. split; [|by apply IH].
  intros Hin. apply Hk.
  apply list_elem_of_fmap in Hin as ([k' v'] & -> & Hin).
  apply list_elem_of_In, filter_In in Hin as [Hin _].
  apply list_elem_of_fmap. exists (k', v'). split; [done|].
  by apply list_elem_of_In.
Qed.

(** Rebuilding an object entry by entry: with distinct keys the result
    holds the listed entries, and what the accumulator had elsewhere. *)
Lemma lookup_foldl_insert {A} (l : list (string * A)) (acc : gmap string A)
    (k : string) (v : A) :
  NoDup (l.*1) →
  foldl (fun acc '(id, data) => <[id := data]> acc) acc l !! k = Some v
  ↔ (k, v) ∈ l ∨ ((k ∉ l.*1) ∧ acc !! k = Some v).
Proof.
  revert acc. induction l as [|[k' v'] l IH]; intros acc; simpl.
  - intros _. split.
    + intros H. right. split; [apply not_elem_of_nil | done].
    + intros [H|[_ H]]; [by apply elem_of_nil in H | done].
  - rewrite NoDup_cons. intros [Hk' Hl]. rewrite (IH _ Hl). split.
    + intros [Hin|[Hnot Hacc]].
      * left. by apply list_elem_of_further.
      * destruct (decide (k' = k)) as [->|Hne].
        -- rewrite lookup_insert_eq in Hacc. injection Hacc as ->.
           left. apply list_elem_of_here.
        -- rewrite lookup_insert_ne in Hacc; [|done].
           right. split; [|done].
           rewrite not_elem_of_cons. split; [congruence | done].
    + intros [Hin|[Hnot Hacc]].
      * apply elem_of_cons in Hin as [Heq|Hin]; [|by left].
        injection Heq as -> ->. right. split; [done|].
        apply lookup_insert_eq.
      * apply not_elem_of_cons in Hnot as [Hne Hnot].
        right. split; [done|]. by rewrite lookup_insert_ne.
Qed.

Lemma lookup_filterData (ns : list Node) (d : gmap string KurtosisNodeData)
    (id : string) (v : KurtosisNodeData) :
  filterData ns d !! id = Some v
  ↔ d !! id = Some v ∧ ∃ node, node ∈ ns ∧ node_id node = id.
Proof.
  unfold filterData.
  rewrite lookup_foldl_insert
    by apply NoDup_fst_filter, NoDup_fst_map_to_list.
  rewrite lookup_empty, list_elem_of_In, filter_In, <- list_elem_of_In.
  rewrite elem_of_map_to_list, some_node_has_id_spec.
  split; [intros [[? ?]|[_ ?]]; done | intros [? ?]; by left].
Qed.

(** C10.  When the existing enclave parses, the data map handed to the
    variable context keeps exactly the parsed entries whose key is the
    identifier of a parsed node: every key of the initial map is the
    identifier of some node of the initial node list, and entries
    without a node are dropped. *)
Theorem initial_data_restricted_to_nodes
    (existingEnclave : option EnclaveFullInfo) (value : GraphState) :
  getInitialGraphStateFromEnclave existingEnclave = Ok value →
  let init := (initialGraphState existingEnclave).1 in
  gs_nodes init = gs_nodes value
  ∧ (∀ id, is_Some (gs_data init !! id) →
           ∃ node, node ∈ gs_nodes init ∧ node_id node = id)
  ∧ (∀ id d, gs_data init !! id = Some d
             ↔ gs_data value !! id = Some d
               ∧ ∃ node, node ∈ gs_nodes value ∧ node_id node = id)
  ∧ (∀ id, (∀ node, node ∈ gs_nodes value → node_id node ≠ id) →
           gs_data init !! id = None).
Proof.
  intros Hparse. unfold initialGraphState. rewrite Hparse. simpl.
  split_and!.
  - done.
  - intros id [d Hd]. by apply lookup_filterData in Hd as [_ ?].
  - intros id d. apply lookup_filterData.
  - intros id Hnone. apply eq_None_not_Some. intros [d Hd].
    apply lookup_filterData in Hd as (_ & node & Hin & Hid).
    by apply (Hnone node).
Qed.

(** ** Properties of the dependency-edge effect *)

Lemma dependencyEdge_inj (to to' from from' : string) :
  dependencyEdge to from = dependencyEdge to' from' → to = to' ∧ from = from'.
Proof. unfold dependencyEdge. intros H. by injection H. Qed.

Lemma elem_of_flattenDependencies (deps : gmap string (gset string)) (e : Edge) :
  e ∈ flattenDependencies deps
  ↔ ∃ to froms from,
      deps !! to = Some froms ∧ from ∈ froms ∧ e = dependencyEdge to from.
Proof.
  unfold flattenDependencies. rewrite list_elem_of_bind. split.
  - intros ([to froms] & He & Hin).
    apply elem_of_map_to_list in Hin.
    apply list_elem_of_fmap in He as (from & -> & Hfrom).
    apply elem_of_elements in Hfrom. by exists to, froms, from.
  - intros (to & froms & from & Hdeps & Hfrom & ->).
    exists (to, froms). split.
    + apply list_elem_of_fmap. exists from. split; [done|].
      by apply elem_of_elements.
    + by apply elem_of_map_to_list.
Qed.

Lemma NoDup_flattenDependencies (deps : gmap string (gset string)) :
  NoDup (flattenDependencies deps).
Proof.
  unfold flattenDependencies. apply NoDup_bind.
  - intros [to1 froms1] [to2 froms2] e Hin1 Hin2 He1 He2.
    apply list_elem_of_fmap in He1 as (from1 & -> & _).
    apply list_elem_of_fmap in He2 as (from2 & Heq & _).
    apply dependencyEdge_inj in Heq as [-> _].
    apply elem_of_map_to_list in Hin1, Hin2. congruence.
  - intros [to froms] _. apply NoDup_fmap_2_strong.
    + intros from1 from2 _ _ Heq. by apply dependencyEdge_inj in Heq as [_ ?].
    + apply NoDup_elements.
  - apply NoDup_map_to_list.
Qed.

(** C1.  After the edge effect has run the edge list is the flattened
    dependency relation of the current data map, whatever the edge list
    was before: an edge is in it exactly when it is the edge
    [from-to] (source [from], target [to], animated, stroke width 3px)
    of a dependency [from] of [to], and no edge appears twice. *)
Theorem edge_sync_is_flattened_dependencies (st : VisualiserState) :
  let deps := getNodeDependencies (data st) in
  edges (edgeSyncEffect st) = flattenDependencies deps
  ∧ (∀ e, e ∈ edges (edgeSyncEffect st)
          ↔ ∃ to froms from,
              deps !! to = Some froms ∧ from ∈ froms
              ∧ e = {| edge_id := from +:+ "-" +:+ to;
                       source := from;
                       target := to;
                       animated := Some true;
                       style := Some {| strokeWidth := "3px" |} |})
  ∧ NoDup (edges (edgeSyncEffect st))
  ∧ (∀ prev, edges (edgeSyncEffect (setEdges (fun _ => prev) st))
             = edges (edgeSyncEffect st))
  ∧ data (edgeSyncEffect st) = data st
  ∧ nodes (edgeSyncEffect st) = nodes st.
Proof.
  simpl. split_and!; try done.
  - intros e. apply elem_of_flattenDependencies.
  - apply NoDup_flattenDependencies.
Qed.

(** ** Properties of the layout adapter *)

Lemma getLayoutedElements_edges (g : DagreGraph) (ns : list Node)
    (es : list Edge) :
  (returned (getLayoutedElements g ns es)).2 = es.
Proof. unfold getLayoutedElements. by destruct ns. Qed.

Lemma getLayoutedElements_graph (g : DagreGraph) (ns : list Node)
    (es : list Edge) :
  ns ≠ [] →
  graphAfter (getLayoutedElements g ns es)
  = Dagre_layout
      (foldl (fun g node => setNode (node_id node) node g)
         (foldl (fun g edge => setEdge (source edge) (target edge) g)
            (setGraph {| rankdir := "LR"; ranksep := 100 |} g) es) ns).
Proof. unfold getLayoutedElements. by destruct ns. Qed.

Lemma getLayoutedElements_nodes (g : DagreGraph) (ns : list Node)
    (es : list Edge) :
  ns ≠ [] →
  inputsAfter (getLayoutedElements g ns es)
  = labelledInPlace (graphAfter (getLayoutedElements g ns es)) ns
  ∧ (returned (getLayoutedElements g ns es)).1
    = map (withPosition (graphAfter (getLayoutedElements g ns es)))
        (labelledInPlace (graphAfter (getLayoutedElements g ns es)) ns).
Proof. unfold getLayoutedElements. by destruct ns. Qed.

Lemma labelledInPlace_lookup (g : DagreGraph) (ns : list Node) (i : nat)
    (node : Node) :
  ns !! i = Some node →
  labelledInPlace g ns !! i
  = Some (if some_node_has_id (drop (S i) ns) (node_id node) then node
          else writeLabel (g_node g (node_id node)) node).
Proof.
  revert i. induction ns as [|n ns IH]; intros [|i] Hi; simpl in *;
    try discriminate.
  - injection Hi as ->. by rewrite drop_0.
  - by apply IH.
Qed.

Lemma labelledInPlace_ids (g : DagreGraph) (ns : list Node) :
  node_id <$> labelledInPlace g ns = node_id <$> ns.
Proof.
  induction ns as [|n ns IH]; csimpl; [done|].
  rewrite IH. by destruct (some_node_has_id ns (node_id n)).
Qed.

Lemma getLayoutedElements_ids (g : DagreGraph) (ns : list Node)
    (es : list Edge) :
  node_id <$> (returned (getLayoutedElements g ns es)).1 = node_id <$> ns.
Proof.
  destruct ns as [|n ns]; [done|].
  destruct (getLayoutedElements_nodes g (n :: ns) es) as [_ ->]; [done|].
  change (map ?f ?l) with (f <$> l).
  rewrite <- list_fmap_compose, <- (labelledInPlace_ids
    (graphAfter (getLayoutedElements g (n :: ns) es)) (n :: ns)).
  by apply list_fmap_ext.
Qed.

(** C9, as the code has it.  The layout adapter returns its input when
    there are no nodes.  Otherwise the shared graph is the result of
    Dagre's layout after the graph options, every edge and every node
    have been registered on it; the result has as many nodes as the
    input, in the same order, and the edge list passed in.  The node at
    each index keeps its identifier, width, type and payload, has for
    position the [x] and [y] that the layout wrote on the label of its
    identifier, and besides carries the [x], [y] and [rank] written on
    the node object itself when that object is the label (the last node
    of its identifier); the input node objects are changed in place in
    the same way. *)
Theorem layout_rewrites_position_and_label (g : DagreGraph) (ns : list Node)
    (es : list Edge) :
  let out := getLayoutedElements g ns es in
  (ns = [] →
   out = {| graphAfter := g; inputsAfter := ns; returned := (ns, es) |})
  ∧ (returned out).2 = es
  ∧ length (returned out).1 = length ns
  ∧ (ns ≠ [] →
     graphAfter out
     = Dagre_layout
         (foldl (fun g node => setNode (node_id node) node g)
            (foldl (fun g edge => setEdge (source edge) (target edge) g)
               (setGraph {| rankdir := "LR"; ranksep := 100 |} g) es) ns))
  ∧ (ns ≠ [] →
     ∀ i node, ns !! i = Some node →
       let label := g_node (graphAfter out) (node_id node) in
       let carried :=
         if some_node_has_id (drop (S i) ns) (node_id node)
         then dagre node else Some label in
       (returned out).1 !! i
       = Some {| node_id := node_id node;
                 position := {| x := label_x label; y := label_y label |};
                 width := width node;
                 type := type node;
                 node_data := node_data node;
                 dagre := carried |}
       ∧ inputsAfter out !! i
         = Some {| node_id := node_id node;
                   position := position node;
                   width := width node;
                   type := type node;
                   node_data := node_data node;
                   dagre := carried |}).
Proof.
  simpl. split_and!.
  - by intros ->.
  - apply getLayoutedElements_edges.
  - rewrite <- !(length_fmap node_id). by rewrite getLayoutedElements_ids.
  - apply getLayoutedElements_graph.
  - intros Hne i node Hi.
    destruct (getLayoutedElements_nodes g ns es Hne) as [-> ->].
    change (map ?f ?l) with (f <$> l).
    rewrite list_lookup_fmap, (labelledInPlace_lookup _ _ _ _ Hi). simpl.
    destruct node as [id pos w ty payload lab]. simpl.
    by destruct (some_node_has_id (drop (S i) ns) id).
Qed.

(** ** Properties of the node-add handlers *)










(** ** Properties of the insertion offset *)

Lemma insertOffset_dispatch_add (st : VisualiserState) (a : Action) :
  isAdd a = true → insertOffset (dispatch st a) = insertOffset st + 1.
Proof. by destruct a. Qed.

Lemma insertOffset_dispatchAll_adds (st : VisualiserState)
    (acts : list Action) :
  forallb isAdd acts = true →
  insertOffset (dispatchAll st acts) = insertOffset st + Z.of_nat (length acts).
Proof.
  unfold dispatchAll. revert st.
  induction acts as [|a acts IH]; intros st Hadds; simpl.
  - lia.
  - simpl in Hadds. apply andb_true_iff in Hadds as [Ha Hadds].
    rewrite (IH _ Hadds), (insertOffset_dispatch_add _ _ Ha). lia.
Qed.

(** C8, as the code has it.  A new node is placed at
    [x = -viewport.x + counter*20 + 400], [y = -viewport.y + counter*20],
    computed in doubles, where [counter] is the offset counter after it
    has been incremented for this insertion, and it is put in front of
    the node list; the counter starts at 0, grows by one with each
    insertion, and a move of the view sets it to 1.  So the k-th
    insertion since the mount is offset by [k*20], and the k-th
    insertion since the last move by [(k+1)*20]. *)
Theorem insert_offset_staggers_new_nodes :
  (∀ st : VisualiserState,
     getNewNodePosition st
     = ({| x := (- vx (viewport st) + Z2float (insertOffset st + 1) * 20
                 + 400)%float;
           y := (- vy (viewport st)
                 + Z2float (insertOffset st + 1) * 20)%float |},
        setInsertOffset (insertOffset st + 1) st))
  ∧ (∀ ns es d v, insertOffset (mountVisualiser ns es d v) = 0)
  ∧ (∀ st a, isAdd a = true →
       insertOffset (dispatch st a) = insertOffset st + 1
       ∧ ∃ n, nodes (dispatch st a) = n :: nodes st
              ∧ position n
                = {| x := (- vx (viewport st)
                           + Z2float (insertOffset (dispatch st a)) * 20
                           + 400)%float;
                     y := (- vy (viewport st)
                           + Z2float (insertOffset (dispatch st a)) * 20
                          )%float |})
  ∧ (∀ st v, insertOffset (dispatch st (Move v)) = 1
             ∧ viewport (dispatch st (Move v)) = v)
  ∧ (∀ st acts, forallb isAdd acts = true →
       insertOffset (dispatchAll st acts)
       = insertOffset st + Z.of_nat (length acts))
  ∧ (∀ st v acts, forallb isAdd acts = true →
       insertOffset (dispatchAll (dispatch st (Move v)) acts)
       = 1 + Z.of_nat (length acts)).
Proof.
  split_and!.
  - done.
  - done.
  - intros st a Ha. split; [by apply insertOffset_dispatch_add|].
    destruct a; [| |done]; eexists; (split; [reflexivity | done]).
  - done.
  - apply insertOffset_dispatchAll_adds.
  - intros st v acts Hadds.
    by rewrite insertOffset_dispatchAll_adds.
Qed.

(** ** Properties of the run controller *)

(** Case analysis on everything the environment can answer during one
    click on Run. *)
Ltac run_cases E :=
  unfold clickRun, handleRun, runOnEnclave; simpl;
  repeat match goal with
  | |- context [visualiserRef E ?n] =>
      let H := fresh "Href" in
      destruct (visualiserRef E n) eqn:H; simpl
  | |- context [createEnclave E ?a ?b ?c] =>
      let H := fresh "Hcreate" in
      destruct (createEnclave E a b c) as [[[?|]]|?] eqn:H; simpl
  | |- context [runStarlarkScript E ?a ?b] =>
      let H := fresh "Hrun" in
      destruct (runStarlarkScript E a b) eqn:H; simpl
  end.

Ltac trace_member H :=
  repeat (apply elem_of_cons in H as [H|H]; [try discriminate H|]);
  try (by apply elem_of_nil in H).

(** C2.  When the visualiser's handle is not mounted, a click on Run
    sets the error to "Cannot run when no services are defined",
    leaves the loading flag as it was, and nothing leaves the
    component: no [createEnclave], no [runStarlarkScript], no close,
    no navigation. *)
Theorem run_without_handle_only_sets_error (E : Env)
    (existingEnclave : option EnclaveFullInfo) (st : ModalState) :
  visualiserRef E 0%nat = None →
  clickRun E existingEnclave st
  = ({| isLoading := isLoading st;
        error := Some "Cannot run when no services are defined" |}, []).
Proof. intros Href. unfold clickRun, handleRun. simpl. by rewrite Href. Qed.

(** C3.  With an existing enclave a click on Run never calls
    [createEnclave]; every call of [runStarlarkScript] is on that
    enclave; and when the handle is mounted the backend is called
    exactly once, [runStarlarkScript] on the existing enclave with the
    exported script. *)
Theorem run_on_existing_enclave_never_creates (E : Env)
    (existingEnclave : EnclaveFullInfo) (st : ModalState) :
  let tr := (clickRun E (Some existingEnclave) st).2 in
  (∀ ev, ev ∈ tr → isCreateEnclaveCall ev = false)
  ∧ (∀ enclave script pending settled,
       RunStarlarkScriptCall enclave script pending settled ∈ tr →
       enclave = existingEnclave)
  ∧ (∀ handle, visualiserRef E 0%nat = Some handle →
       List.filter isBackendCall tr
       = [RunStarlarkScriptCall existingEnclave (getStarlark handle tt)
            (setError None st)
            (runStarlarkScript E existingEnclave (getStarlark handle tt))]).
Proof.
  run_cases E; split_and!.
  all: try (intros ev Hin; trace_member Hin; by subst ev).
  all: try (intros enclave script pending settled Hin; trace_member Hin;
            congruence).
  all: try (intros handle [= <-]; simpl; congruence).
  all: done.
Qed.

(** C4.  Without an existing enclave, every call of
    [runStarlarkScript] comes after a call of [createEnclave] (and with
    the handle mounted [createEnclave] is the first thing called, on an
    empty name, log level "info" and the flag set); if [createEnclave]
    settles to an error the final error is "Could not create enclave,
    got: " followed by the cause, and [runStarlarkScript] is not
    called. *)
Theorem run_creates_before_running (E : Env) (st : ModalState) :
  let out := clickRun E None st in
  (∀ i ev, out.2 !! i = Some ev → isRunStarlarkScriptCall ev = true →
     ∃ j ev', (j < i)%nat ∧ out.2 !! j = Some ev'
              ∧ isCreateEnclaveCall ev' = true)
  ∧ (∀ handle, visualiserRef E 0%nat = Some handle →
       out.2 !! 0%nat
       = Some (CreateEnclaveCall "" "info" true
                 {| isLoading := true; error := None |}
                 (createEnclave E "" "info" true)))
  ∧ (∀ name logLevel flag pending cause,
       CreateEnclaveCall name logLevel flag pending (Err cause) ∈ out.2 →
       error out.1 = Some ("Could not create enclave, got: " +:+ cause)
       ∧ isLoading out.1 = false
       ∧ ∀ ev, ev ∈ out.2 → isRunStarlarkScriptCall ev = false).
Proof.
  run_cases E; split_and!.
  all: try (intros handle Hh; by simplify_eq).
  all: try (intros i ev Hi Hev;
            do 4 (destruct i as [|i]; simpl in Hi;
                  [simplify_eq/=;
                   try (eexists 0%nat, _;
                        split_and!; [lia | reflexivity | done])|]);
            by simplify_eq/=).
  all: intros name logLevel flag pending cause Hin; trace_member Hin.
  all: simplify_eq.
  split_and!; try done.
  intros ev Hin; trace_member Hin; by subst ev.
Qed.

(** C5.  Without an existing enclave, if [createEnclave] settles to a
    response without [enclaveInfo], the final error is "Did not receive
    enclave info when running createEnclave" and the handler stops
    there: [createEnclave] is the only call that left the component. *)
Theorem run_halts_without_enclave_info (E : Env) (st : ModalState) :
  let out := clickRun E None st in
  ∀ name logLevel flag pending,
    CreateEnclaveCall name logLevel flag pending
      (Ok {| enclaveInfo := None |}) ∈ out.2 →
    error out.1
    = Some "Did not receive enclave info when running createEnclave"
    ∧ isLoading out.1 = false
    ∧ (∀ ev, ev ∈ out.2 → isRunStarlarkScriptCall ev = false)
    ∧ out.2 = [CreateEnclaveCall "" "info" true
                 {| isLoading := true; error := None |}
                 (Ok {| enclaveInfo := None |})].
Proof.
  run_cases E.
  all: intros name logLevel flag pending Hin; trace_member Hin.
  all: simplify_eq.
  split_and!; try done.
  intros ev Hin; trace_member Hin; by subst ev.
Qed.

(** C6, as the code has it.  While the loading flag is set no
    dismissal reaches the close callback; while it is not set the two
    close buttons and a click on the backdrop call it, and the escape
    key never does.  During a click on Run that starts with the flag
    unset, the flag is set exactly while [createEnclave] is pending: it
    is not set while [runStarlarkScript] is pending, and not set at the
    end. *)
Theorem close_is_gated_by_loading_flag :
  (∀ E d st, isLoading st = true → closes E d st = false)
  ∧ (∀ E d st, isLoading st = false →
       closes E d st = match d with EscapeKey => false | _ => true end)
  ∧ (∀ E existingEnclave st, isLoading st = false →
       let out := clickRun E existingEnclave st in
       isLoading out.1 = false
       ∧ ∀ ev pending, ev ∈ out.2 → pendingState ev = Some pending →
           isLoading pending = isCreateEnclaveCall ev).
Proof.
  split_and!.
  - intros E d [l e] Hl. simpl in Hl. subst l. by destruct d.
  - intros E d [l e] Hl. simpl in Hl. subst l. by destruct d.
  - intros E [existingEnclave|] [l e] Hl; simpl in Hl; subst l;
      run_cases E; (split; [done|]);
      intros ev pending Hin Hp; trace_member Hin; subst ev;
      simpl in Hp; by simplify_eq.
Qed.

End Properties.

(** ** The model on the concrete world *)

(** Two nodes [A] and [B] with [B] depending on [A]: the synchronised
    edge list is the single edge [A-B]. *)
Example edge_sync_two_nodes :
  edges (dispatchAll (C := sampleCollaborators) emptyVisualiser
           [AddServiceNode "A"; AddServiceNode "B"])
  = [{| edge_id := "A-B"; source := "A"; target := "B";
        animated := Some true; style := Some {| strokeWidth := "3px" |} |}].
Proof. vm_compute. reflexivity. Qed.

(** A full run on a new enclave: create, run, close, navigate. *)
Example run_new_enclave_trace :
  clickRun (C := sampleCollaborators) healthyEnv None initialModalState
  = (initialModalState,
     [CreateEnclaveCall "" "info" true {| isLoading := true; error := None |}
        (Ok sampleCreated);
      RunStarlarkScriptCall (T := sampleTypes) "e42" "def run(plan): pass"
        initialModalState (Ok ["line"]);
      OnCloseCall;
      NavigateCall (T := sampleTypes) "/enclave/e42/logs" ["line"]]).
Proof. reflexivity. Qed.

(** A parse failure reports the error and yields the empty graph. *)
Example initial_state_parse_failure :
  initialGraphState (C := sampleCollaborators) (Some "broken")
  = (@Build_GraphState sampleTypes [] [] ∅, Some "cannot parse").
Proof. reflexivity. Qed.

(** On the sample parse the record of [orphan], which has no node, is dropped. *)
Lemma initial_data_restricted_to_nodes_witness :
  getInitialGraphStateFromEnclave (Collaborators := sampleCollaborators)
    (Some "e1") = Ok sampleParse
  ∧ gs_data (initialGraphState (C := sampleCollaborators) (Some "e1")).1
      !! "orphan" = None.
Proof.
  split; [reflexivity|].
  destruct (initial_data_restricted_to_nodes (C := sampleCollaborators)
              (Some "e1") sampleParse eq_refl) as (_ & _ & _ & Hdropped).
  apply Hdropped. intros node Hin.
  repeat (apply elem_of_cons in Hin as [->|Hin]; [discriminate|]).
  by apply elem_of_nil in Hin.
Defined.

(** Laying out [B] and [A] with the edge from [A] to [B]: the edge
    registers [A] first, so [B] is moved one rank separation to the
    right and carries the label written on it. *)
Lemma layout_rewrites_position_and_label_witness :
  [sampleNode "B"; sampleNode "A"] ≠ []
  ∧ (returned (getLayoutedElements (C := sampleCollaborators) emptyGraph
                 [sampleNode "B"; sampleNode "A"]
                 [dependencyEdge "B" "A"])).1 !! 0%nat
    = Some (@Build_Node sampleTypes "B" {| x := 100; y := 0 |}
              (Some 600%float) (Some "serviceNode") tt
              (Some {| label_x := 100; label_y := 0; label_rank := 1 |})).
Proof.
  split; [discriminate|].
  destruct (layout_rewrites_position_and_label (C := sampleCollaborators)
              emptyGraph [sampleNode "B"; sampleNode "A"]
              [dependencyEdge "B" "A"])
    as (_ & _ & _ & _ & Hnodes).
  destruct (Hnodes ltac:(discriminate) 0%nat (sampleNode "B") eq_refl)
    as [Hreturned _].
  exact Hreturned.
Defined.

(** C9 fails as stated: a node that has never been laid out comes back
    from the layout with more than its position replaced, it now
    carries the [x], [y] and [rank] that Dagre wrote on it. *)
Lemma layout_adds_label_fields :
  dagre (sampleNode "A") = None
  ∧ dagre (T := sampleTypes)
    <$> (returned (getLayoutedElements (C := sampleCollaborators) emptyGraph
                           [sampleNode "A"] [])).1 !! 0%nat
    = Some (Some {| label_x := 0; label_y := 0; label_rank := 0 |})
  ∧ dagre (T := sampleTypes)
    <$> inputsAfter (getLayoutedElements (C := sampleCollaborators) emptyGraph
                             [sampleNode "A"] []) !! 0%nat
    = Some (Some {| label_x := 0; label_y := 0; label_rank := 0 |}).
Proof. split_and!; reflexivity. Qed.



(** After a move and two insertions the counter is 3. *)
Lemma insert_offset_staggers_new_nodes_witness :
  forallb isAdd [AddServiceNode "A"; AddArtifactNode "B"] = true
  ∧ insertOffset (dispatchAll (C := sampleCollaborators)
                    (dispatch (C := sampleCollaborators) emptyVisualiser
                       (Move sampleViewport))
                    [AddServiceNode "A"; AddArtifactNode "B"])
    = 3.
Proof.
  split; [reflexivity|].
  destruct (insert_offset_staggers_new_nodes (C := sampleCollaborators))
    as (_ & _ & _ & _ & _ & Hmoved).
  apply (Hmoved emptyVisualiser sampleViewport
           [AddServiceNode "A"; AddArtifactNode "B"]).
  reflexivity.
Defined.

(** C8 fails as stated: the counter starts at 0 but a move of the view
    sets it to 1, so the first node added after a move is offset by 40
    units, not by the 20 units of one insertion since the move. *)
Lemma move_does_not_restore_initial_offset :
  insertOffset emptyVisualiser = 0
  ∧ insertOffset (dispatch (C := sampleCollaborators) emptyVisualiser
                    (Move sampleViewport)) = 1
  ∧ position <$> head (nodes (dispatchAll (C := sampleCollaborators)
                                emptyVisualiser
                                [Move sampleViewport; AddServiceNode "A"]))
    = Some {| x := (- 0 + 2 * 20 + 400)%float; y := (- 0 + 2 * 20)%float |}
  ∧ position <$> head (nodes (dispatchAll (C := sampleCollaborators)
                                emptyVisualiser
                                [Move sampleViewport; AddServiceNode "A"]))
    ≠ Some {| x := (- 0 + 1 * 20 + 400)%float; y := (- 0 + 1 * 20)%float |}.
Proof.
  split_and!; [reflexivity | reflexivity | reflexivity |].
  intros Heq.
  apply (f_equal (fun p => match p with
                           | Some q => ltb (y q) 30
                           | None => false
                           end)) in Heq.
  vm_compute in Heq. discriminate Heq.
Qed.

(** A click on Run with the visualiser unmounted. *)
Lemma run_without_handle_only_sets_error_witness :
  visualiserRef unmountedEnv 0%nat = None
  ∧ clickRun (C := sampleCollaborators) unmountedEnv (Some "e1")
      initialModalState
    = ({| isLoading := false;
          error := Some "Cannot run when no services are defined" |}, []).
Proof.
  split; [reflexivity|].
  apply (run_without_handle_only_sets_error (C := sampleCollaborators)
           unmountedEnv (Some "e1") initialModalState).
  reflexivity.
Defined.

(** A click on Run on the existing enclave [e1] calls the backend once, to run the script. *)
Lemma run_on_existing_enclave_never_creates_witness :
  visualiserRef healthyEnv 0%nat = Some sampleHandle
  ∧ List.filter isBackendCall
      (clickRun (C := sampleCollaborators) healthyEnv (Some "e1")
         initialModalState).2
    = [RunStarlarkScriptCall (T := sampleTypes) "e1" "def run(plan): pass"
         initialModalState (Ok ["line"])].
Proof.
  split; [reflexivity|].
  destruct (run_on_existing_enclave_never_creates (C := sampleCollaborators)
              healthyEnv "e1" initialModalState) as (_ & _ & Hcalls).
  apply (Hcalls sampleHandle). reflexivity.
Defined.

(** A click on Run when enclave creation fails. *)
Lemma run_creates_before_running_witness :
  CreateEnclaveCall (T := sampleTypes) "" "info" true
    {| isLoading := true; error := None |} (Err "quota exceeded")
  ∈ (clickRun (C := sampleCollaborators) failingCreateEnv None
       initialModalState).2
  ∧ error (clickRun (C := sampleCollaborators) failingCreateEnv None
             initialModalState).1
    = Some "Could not create enclave, got: quota exceeded".
Proof.
  assert (Hin : CreateEnclaveCall (T := sampleTypes) "" "info" true
                  {| isLoading := true; error := None |} (Err "quota exceeded")
                ∈ (clickRun (C := sampleCollaborators) failingCreateEnv None
                     initialModalState).2)
    by apply list_elem_of_here.
  split; [exact Hin|].
  destruct (run_creates_before_running (C := sampleCollaborators)
              failingCreateEnv initialModalState) as (_ & _ & Hfailed).
  destruct (Hfailed _ _ _ _ _ Hin) as [Herror _]. exact Herror.
Defined.

(** A click on Run when the creation response carries no enclave. *)
Lemma run_halts_without_enclave_info_witness :
  CreateEnclaveCall (T := sampleTypes) "" "info" true
    {| isLoading := true; error := None |} (Ok sampleNoInfo)
  ∈ (clickRun (C := sampleCollaborators) noInfoEnv None initialModalState).2
  ∧ error (clickRun (C := sampleCollaborators) noInfoEnv None
             initialModalState).1
    = Some "Did not receive enclave info when running createEnclave".
Proof.
  assert (Hin : CreateEnclaveCall (T := sampleTypes) "" "info" true
                  {| isLoading := true; error := None |} (Ok sampleNoInfo)
                ∈ (clickRun (C := sampleCollaborators) noInfoEnv None
                     initialModalState).2)
    by apply list_elem_of_here.
  split; [exact Hin|].
  destruct (run_halts_without_enclave_info (C := sampleCollaborators)
              noInfoEnv initialModalState _ _ _ _ Hin) as [Herror _].
  exact Herror.
Defined.

(** A click on the backdrop while loading does not close. *)
Lemma close_is_gated_by_loading_flag_witness :
  isLoading {| isLoading := true; error := None |} = true
  ∧ closes healthyEnv OverlayClick {| isLoading := true; error := None |}
    = false.
Proof.
  split; [reflexivity|].
  destruct (close_is_gated_by_loading_flag (C := sampleCollaborators))
    as (Hloading & _ & _).
  apply (Hloading healthyEnv OverlayClick). reflexivity.
Defined.

(** C6 fails as stated: with or without an existing enclave the
    loading flag is not set while [runStarlarkScript] is pending, and in
    the state on screen at that moment both close buttons and a click on
    the backdrop reach the close callback. *)
Lemma close_enabled_while_run_pending :
  (clickRun (C := sampleCollaborators) healthyEnv (Some "e1")
     initialModalState).2 !! 0%nat
  = Some (RunStarlarkScriptCall (T := sampleTypes) "e1" "def run(plan): pass"
            {| isLoading := false; error := None |} (Ok ["line"]))
  ∧ (clickRun (C := sampleCollaborators) healthyEnv None
       initialModalState).2 !! 1%nat
    = Some (RunStarlarkScriptCall (T := sampleTypes) "e42" "def run(plan): pass"
              {| isLoading := false; error := None |} (Ok ["line"]))
  ∧ closes healthyEnv FooterCloseButton {| isLoading := false; error := None |}
    = true
  ∧ closes healthyEnv HeaderCloseButton {| isLoading := false; error := None |}
    = true
  ∧ closes healthyEnv OverlayClick {| isLoading := false; error := None |}
    = true.
Proof. split_and!; reflexivity. Qed.

(** * Further properties *)

Section FurtherProperties.

Context {T : ExternalTypes} {C : Collaborators} {G : Generator}.

(** ** The initial graph state, whatever the parse gives *)

(** The entry-by-entry rebuild of the data object is the restriction of
    the parsed map to the identifiers of the parsed nodes; in particular
    it only ever drops entries. *)
Theorem filterData_is_map_filter (ns : list Node)
    (d : gmap string KurtosisNodeData) :
  filterData ns d = filter (fun kv => kv.1 ∈ node_id <$> ns) d
  ∧ filterData ns d ⊆ d.
Proof.
  assert (Heq : filterData ns d = filter (fun kv => kv.1 ∈ node_id <$> ns) d).
  { apply map_eq. intros id. apply option_eq. intros v.
    rewrite lookup_filterData, map_lookup_filter_Some. simpl.
    rewrite list_elem_of_fmap. split.
    - intros (Hd & node & Hin & Hid). split; [done|]. by exists node.
    - intros (Hd & node & Hid & Hin). split; [done|]. by exists node. }
  split; [done|]. rewrite Heq. apply map_filter_subseteq.
Qed.

(** Filtering twice is filtering once, and a data map is handed on
    unchanged exactly when each of its keys is the identifier of a
    node. *)
Theorem filterData_idempotent_and_fixpoint (ns : list Node)
    (d : gmap string KurtosisNodeData) :
  filterData ns (filterData ns d) = filterData ns d
  ∧ (filterData ns d = d
     ↔ ∀ id, is_Some (d !! id) → ∃ node, node ∈ ns ∧ node_id node = id).
Proof.
  split.
  - apply map_eq. intros id. apply option_eq. intros v.
    rewrite !lookup_filterData. tauto.
  - split.
    + intros Heq id [v Hv]. rewrite <- Heq in Hv.
      by apply lookup_filterData in Hv as [_ ?].
    + intros Hall. apply map_eq. intros id. apply option_eq. intros v.
      rewrite lookup_filterData. split; [tauto|].
      intros Hv. split; [done|]. apply Hall. by exists v.
Qed.

(** Whether the parse succeeds or fails, every key of the initial data
    map is the identifier of an initial node; a parse error is reported
    exactly when the parse failed, and then nodes, edges and data are all
    empty. *)
Theorem initial_state_keys_have_nodes
    (existingEnclave : option EnclaveFullInfo) :
  let init := (initialGraphState existingEnclave).1 in
  let reported := (initialGraphState existingEnclave).2 in
  (∀ id, is_Some (gs_data init !! id) →
         ∃ node, node ∈ gs_nodes init ∧ node_id node = id)
  ∧ (∀ e, reported = Some e
          ↔ getInitialGraphStateFromEnclave existingEnclave = Err e)
  ∧ (is_Some reported →
     gs_nodes init = [] ∧ gs_edges init = [] ∧ gs_data init = ∅).
Proof.
  unfold initialGraphState.
  destruct (getInitialGraphStateFromEnclave existingEnclave) as [value|e0];
    simpl; split_and!.
  - intros id [v Hv]. by apply lookup_filterData in Hv as [_ ?].
  - intros e. split; discriminate.
  - intros [e He]. discriminate.
  - intros id [v Hv]. by rewrite lookup_empty in Hv.
  - intros e. split; congruence.
  - done.
Qed.

(** ** Edge identifiers *)

Lemma append_inj_same_length (a b c d : string) :
  String.length a = String.length b → a +:+ c = b +:+ d → a = b ∧ c = d.
Proof.
  revert b. induction a as [|ch a IH]; intros [|ch' b] Hlen Heq;
    simpl in *; try discriminate.
  - done.
  - injection Heq as -> Heq. injection Hlen as Hlen.
    destruct (IH b Hlen Heq) as [-> ->]. done.
Qed.

(** When the identifiers that are depended on all have the same length,
    as identifiers drawn from [uuidv4] do, no two edges of the
    synchronised list share their [from-to] identifier. *)
Theorem edge_ids_unique_for_equal_length_ids
    (deps : gmap string (gset string)) (n : nat) :
  (∀ to froms from, deps !! to = Some froms → from ∈ froms →
     String.length from = n) →
  NoDup (edge_id <$> flattenDependencies deps).
Proof.
  intros Hlen. apply NoDup_fmap_2_strong; [|apply NoDup_flattenDependencies].
  intros e1 e2 He1 He2 Hid.
  apply elem_of_flattenDependencies in He1 as (to1 & froms1 & from1 & Hd1 & Hf1 & ->).
  apply elem_of_flattenDependencies in He2 as (to2 & froms2 & from2 & Hd2 & Hf2 & ->).
  simpl in Hid.
  apply append_inj_same_length in Hid as [-> Hto].
  - by apply append_inj_same_length in Hto as [_ ->].
  - by rewrite (Hlen _ _ _ Hd1 Hf1), (Hlen _ _ _ Hd2 Hf2).
Qed.

(** ** The layout button *)

Lemma fitView_frame (fitted : option Viewport) (st : VisualiserState) :
  data (fitView fitted st) = data st
  ∧ edges (fitView fitted st) = edges st
  ∧ nodes (fitView fitted st) = nodes st.
Proof. unfold fitView. by destruct (nodes st) eqn:Hnodes, fitted. Qed.

Lemma onLayout_state (g : DagreGraph) (fitted : option Viewport)
    (st : VisualiserState) :
  data (onLayout g fitted st).2 = data st
  ∧ edges (onLayout g fitted st).2 = edges st
  ∧ node_id <$> nodes (onLayout g fitted st).2 = node_id <$> nodes st.
Proof.
  unfold onLayout. simpl.
  destruct (fitView_frame fitted
              (setEdges (fun _ => (returned
                   (getLayoutedElements g (nodes st) (edges st))).2)
                 (setNodes (returned
                   (getLayoutedElements g (nodes st) (edges st))).1 st)))
    as (-> & -> & ->).
  simpl. split_and!.
  - done.
  - apply getLayoutedElements_edges.
  - apply getLayoutedElements_ids.
Qed.

(** Do Layout leaves the data map and the edge list as they are and
    keeps the number, order and identifiers of the nodes.  On an empty
    canvas it changes nothing at all, the shared layout graph included.
    Otherwise, when the refit it schedules moves the view, the viewport
    is the fitted one and the offset counter is set to 1, as after any
    other move; when the refit does not happen, both stay as they
    were. *)
Theorem onLayout_frame (g : DagreGraph) (fitted : option Viewport)
    (st : VisualiserState) :
  let out := onLayout g fitted st in
  data out.2 = data st
  ∧ edges out.2 = edges st
  ∧ node_id <$> nodes out.2 = node_id <$> nodes st
  ∧ (nodes st = [] → out = (g, st))
  ∧ (nodes st ≠ [] → ∀ v, fitted = Some v →
       viewport out.2 = v ∧ insertOffset out.2 = 1)
  ∧ (fitted = None →
       viewport out.2 = viewport st ∧ insertOffset out.2 = insertOffset st).
Proof.
  simpl. destruct (onLayout_state g fitted st) as (Hdata & Hedges & Hids).
  split_and!; try done.
  - intros Hempty. destruct st as [d c v ns es]. simpl in Hempty. subst ns.
    unfold onLayout, fitView. by destruct fitted.
  - intros Hne v ->.
    assert (Hlaid : nodes (setEdges
              (fun _ => (returned (getLayoutedElements g (nodes st) (edges st))).2)
              (setNodes (returned
                 (getLayoutedElements g (nodes st) (edges st))).1 st)) ≠ []).
    { simpl. intros Hnil. apply Hne.
      apply (f_equal (fmap node_id)) in Hnil.
      rewrite getLayoutedElements_ids in Hnil.
      by apply fmap_nil_inv in Hnil. }
    unfold onLayout, fitView.
    by destruct (nodes (setEdges _ _)).
  - intros ->. unfold onLayout, fitView.
    by destruct (nodes (setEdges _ _)).
Qed.

(** ** What holds in every state the user can reach *)

Lemma insync_step (w : DagreGraph * VisualiserState) (ev : UserEvent) :
  edges w.2 = flattenDependencies (getNodeDependencies (data w.2)) →
  edges (step w ev).2
  = flattenDependencies (getNodeDependencies (data (step w ev).2)).
Proof.
  intros Hsync. destruct ev as [[id|id|v]|fitted]; [done..|].
  change (step w (DoLayout fitted)) with (onLayout w.1 fitted w.2).
  by destruct (onLayout_state w.1 fitted w.2) as (-> & -> & _).
Qed.

Lemma insync_stepAll (w : DagreGraph * VisualiserState) (evs : list UserEvent) :
  edges w.2 = flattenDependencies (getNodeDependencies (data w.2)) →
  edges (stepAll w evs).2
  = flattenDependencies (getNodeDependencies (data (stepAll w evs).2)).
Proof.
  unfold stepAll. revert w.
  induction evs as [|ev evs IH]; intros w Hsync; simpl; [done|].
  by apply IH, insync_step.
Qed.

Lemma insync_reachable (existingEnclave : option EnclaveFullInfo)
    (v : Viewport) (g : DagreGraph) (evs : list UserEvent) :
  edges (stepAll (g, (mountModal existingEnclave v).1) evs).2
  = flattenDependencies
      (getNodeDependencies
         (data (stepAll (g, (mountModal existingEnclave v).1) evs).2)).
Proof.
  apply insync_stepAll. unfold mountModal.
  by destruct (initialGraphState existingEnclave) as [init parseError].
Qed.

(** From the mount of the modal on, through any sequence of node
    additions, view moves and layouts, the edge list is the flattened
    dependency relation of the current data map.  In particular the
    edges returned by the parser never reach the canvas. *)
Theorem edges_always_in_sync (existingEnclave : option EnclaveFullInfo)
    (v : Viewport) (g : DagreGraph) (evs : list UserEvent) :
  let st := (stepAll (g, (mountModal existingEnclave v).1) evs).2 in
  edges st = flattenDependencies (getNodeDependencies (data st)).
Proof. apply insync_reachable. Qed.

Lemma keys_have_nodes_step (w : DagreGraph * VisualiserState) (ev : UserEvent) :
  (∀ id, is_Some (data w.2 !! id) → id ∈ node_id <$> nodes w.2) →
  ∀ id, is_Some (data (step w ev).2 !! id) →
        id ∈ node_id <$> nodes (step w ev).2.
Proof.
  intros Hinv id. destruct ev as [[id'|id'|v]|fitted];
    [simpl; rewrite elem_of_cons..
    |simpl
    |change (step w (DoLayout fitted)) with (onLayout w.1 fitted w.2)].
  - destruct (decide (id' = id)) as [->|Hne].
    + intros _. by left.
    + rewrite lookup_insert_ne by done. intros Hid. right. by apply Hinv.
  - destruct (decide (id' = id)) as [->|Hne].
    + intros _. by left.
    + rewrite lookup_insert_ne by done. intros Hid. right. by apply Hinv.
  - apply Hinv.
  - destruct (onLayout_state w.1 fitted w.2) as (-> & _ & ->). apply Hinv.
Qed.

(** From the mount of the modal on, through any sequence of node
    additions, view moves and layouts, every record of the data map
    belongs to a node on the canvas. *)
Theorem records_always_have_nodes (existingEnclave : option EnclaveFullInfo)
    (v : Viewport) (g : DagreGraph) (evs : list UserEvent) :
  let st := (stepAll (g, (mountModal existingEnclave v).1) evs).2 in
  ∀ id, is_Some (data st !! id) → ∃ node, node ∈ nodes st ∧ node_id node = id.
Proof.
  simpl.
  assert (Hinv : ∀ id,
    is_Some (data (stepAll (g, (mountModal existingEnclave v).1) evs).2 !! id) →
    id ∈ node_id <$> nodes (stepAll (g, (mountModal existingEnclave v).1) evs).2).
  { unfold stepAll.
    assert (Hmount : ∀ id,
      is_Some (data (g, (mountModal existingEnclave v).1).2 !! id) →
      id ∈ node_id <$> nodes (g, (mountModal existingEnclave v).1).2).
    { unfold mountModal, initialGraphState.
      destruct (getInitialGraphStateFromEnclave existingEnclave) as [value|e];
        simpl; intros id [d Hd].
      - apply lookup_filterData in Hd as (_ & node & Hin & <-).
        by apply list_elem_of_fmap_2.
      - by rewrite lookup_empty in Hd. }
    revert Hmount. generalize (g, (mountModal existingEnclave v).1).
    induction evs as [|ev evs IH]; intros w Hw; simpl; [done|].
    by apply IH, keys_have_nodes_step. }
  intros id Hid. apply Hinv, list_elem_of_fmap in Hid as (node & -> & Hin).
  by exists node.
Qed.

(** ** Where new nodes land, and what additions leave alone *)

Local Abbreviation staggered v c :=
  (fun k : nat =>
     {| x := (- vx v + Z2float (c + Z.of_nat k) * 20 + 400)%float;
        y := (- vy v + Z2float (c + Z.of_nat k) * 20)%float |}).

Lemma positions_dispatch_add (st : VisualiserState) (a : Action) :
  isAdd a = true →
  position <$> nodes (dispatch st a)
  = staggered (viewport st) (insertOffset st) 1%nat :: (position <$> nodes st)
  ∧ viewport (dispatch st a) = viewport st.
Proof. by destruct a. Qed.

Lemma positions_dispatchAll_adds (st : VisualiserState) (acts : list Action) :
  forallb isAdd acts = true →
  position <$> nodes (dispatchAll st acts)
  = reverse (staggered (viewport st) (insertOffset st)
               <$> seq 1 (length acts))
    ++ (position <$> nodes st).
Proof.
  unfold dispatchAll. revert st.
  induction acts as [|a acts IH]; intros st Hadds; [done|].
  simpl in Hadds. apply andb_true_iff in Hadds as [Ha Hadds].
  simpl. rewrite (IH _ Hadds).
  destruct (positions_dispatch_add st a Ha) as [-> ->].
  rewrite (insertOffset_dispatch_add st a Ha).
  rewrite reverse_cons, <- app_assoc. simpl. f_equal. f_equal.
  change (list_fmap nat XYPosition ?f ?l) with (f <$> l).
  rewrite <- (fmap_S_seq 1), <- list_fmap_compose.
  apply list_fmap_ext. intros _ k _. simpl.
  by replace (insertOffset st + 1 + Z.of_nat k)
    with (insertOffset st + Z.of_nat (S k)) by lia.
Qed.

(** Nodes added one after the other, with no move of the view in
    between, head the node list newest first, and the k-th of them was
    placed at [x = -viewport.x + (c+k)*20 + 400],
    [y = -viewport.y + (c+k)*20], computed in doubles, where [c] is where
    the counter stood before the first. *)
Theorem insertions_are_staggered (st : VisualiserState) (acts : list Action) :
  forallb isAdd acts = true →
  position <$> nodes (dispatchAll st acts)
  = reverse (staggered (viewport st) (insertOffset st)
               <$> seq 1 (length acts))
    ++ (position <$> nodes st).
Proof. apply positions_dispatchAll_adds. Qed.

Lemma nodes_dispatch_suffix (st : VisualiserState) (a : Action) :
  nodes st `suffix_of` nodes (dispatch st a).
Proof. destruct a; simpl; try (by eexists [_]). by exists []. Qed.

Lemma length_nodes_dispatchAll (st : VisualiserState) (acts : list Action) :
  length (nodes (dispatchAll st acts))
  = (length (List.filter isAdd acts) + length (nodes st))%nat.
Proof.
  unfold dispatchAll. revert st.
  induction acts as [|a acts IH]; intros st; [done|].
  simpl. rewrite IH. destruct a; simpl; lia.
Qed.

(** Adding nodes and moving the view never removes, reorders or changes
    a node that is already on the canvas: the old node list is the tail
    of the new one, behind one new node per add action. *)
Theorem additions_keep_existing_nodes (st : VisualiserState)
    (acts : list Action) :
  let st' := dispatchAll st acts in
  nodes st `suffix_of` nodes st'
  ∧ length (nodes st')
    = (length (List.filter isAdd acts) + length (nodes st))%nat.
Proof.
  simpl. split; [|apply length_nodes_dispatchAll].
  unfold dispatchAll. revert st.
  induction acts as [|a acts IH]; intros st; simpl; [done|].
  etrans; [apply (nodes_dispatch_suffix st a) | apply IH].
Qed.

(** ** One click on Run, from start to end *)

Ltac click_cases E :=
  unfold clickRun, handleRun, runOnEnclave; simpl;
  repeat match goal with
  | |- context [visualiserRef E ?n] =>
      let H := fresh "Href" in
      destruct (visualiserRef E n) eqn:H; simpl
  | |- context [createEnclave E ?a ?b ?c] =>
      let H := fresh "Hcreate" in
      destruct (createEnclave E a b c) as [[[?|]]|?] eqn:H; simpl
  | |- context [runStarlarkScript E ?a ?b] =>
      let H := fresh "Hrun" in
      destruct (runStarlarkScript E a b) eqn:H; simpl
  end.

Ltac in_trace H :=
  repeat (apply elem_of_cons in H as [H|H]; [try discriminate H|]);
  try (by apply elem_of_nil in H).

(** When [runStarlarkScript] resolves, the error is cleared and the
    handler ends by closing the dialog and then navigating to the log
    page of the enclave the script ran on, handing over the log stream
    of that very run. *)
Theorem run_success_closes_and_navigates (E : Env)
    (existingEnclave : option EnclaveFullInfo) (st : ModalState) :
  let out := clickRun E existingEnclave st in
  ∀ enclave script pending logs,
    RunStarlarkScriptCall enclave script pending (Ok logs) ∈ out.2 →
    error out.1 = None
    ∧ ∃ before,
        out.2 = before
                ++ [RunStarlarkScriptCall enclave script pending (Ok logs);
                    OnCloseCall;
                    NavigateCall
                      ("/enclave/" +:+ shortenedUuid enclave +:+ "/logs") logs].
Proof.
  destruct existingEnclave as [existing|]; click_cases E.
  all: intros enclave script pending logs Hin; in_trace Hin.
  all: simplify_eq; (split; [done|]).
  - by exists [].
  - by eexists [_].
Qed.

(** When [runStarlarkScript] rejects, the error shown is the stringified
    cause, the dialog is not closed and nothing is navigated to. *)
Theorem run_failure_reports_and_stays (E : Env)
    (existingEnclave : option EnclaveFullInfo) (st : ModalState) :
  let out := clickRun E existingEnclave st in
  ∀ enclave script pending thrown,
    RunStarlarkScriptCall enclave script pending (Err thrown) ∈ out.2 →
    error out.1 = Some (stringifyError thrown)
    ∧ ∀ ev, ev ∈ out.2 → isOnCloseCall ev = false ∧ isNavigateCall ev = false.
Proof.
  destruct existingEnclave as [existing|]; click_cases E.
  all: intros enclave script pending thrown Hin; in_trace Hin.
  all: simplify_eq; (split; [done|]).
  all: intros ev Hev; in_trace Hev; by subst ev.
Qed.

(** Without an existing enclave, a script is only ever run on the
    enclave that [createEnclave] has just returned, and the script is
    the one exported by the handle as it is after the creation has
    resolved. *)
Theorem new_enclave_run_uses_created_enclave (E : Env) (st : ModalState) :
  let out := clickRun E None st in
  ∀ enclave script pending settled,
    RunStarlarkScriptCall enclave script pending settled ∈ out.2 →
    out.2 !! 0%nat
    = Some (CreateEnclaveCall "" "info" true
              {| isLoading := true; error := None |}
              (Ok {| enclaveInfo := Some enclave |}))
    ∧ ∃ handle, visualiserRef E 1%nat = Some handle
                ∧ script = getStarlark handle tt.
Proof.
  click_cases E.
  all: intros enclave script pending settled Hin; in_trace Hin.
  all: simplify_eq; (split; [done|]); by eexists.
Qed.

(** If the visualiser is unmounted while the enclave is being created,
    the enclave stays created but no script is run on it: the failed
    dereference is caught and reported like a failed run. *)
Theorem handle_lost_during_creation (E : Env) (st : ModalState)
    (handle : VisualiserImperativeAttributes) (info : EnclaveFullInfo) :
  visualiserRef E 0%nat = Some handle →
  createEnclave E "" "info" true = Ok {| enclaveInfo := Some info |} →
  visualiserRef E 1%nat = None →
  clickRun E None st
  = ({| isLoading := false; error := Some (stringifyError TypeErrorOfNull) |},
     [CreateEnclaveCall "" "info" true {| isLoading := true; error := None |}
        (Ok {| enclaveInfo := Some info |})]).
Proof.
  intros Href0 Hcreate Href1.
  unfold clickRun, handleRun, runOnEnclave. simpl.
  rewrite Href0. simpl. rewrite Hcreate. simpl. by rewrite Href1.
Qed.

(** One click calls each backend operation, the close callback and the
    navigation at most once, and while a backend call is pending no
    error is on screen, whatever error was shown before the click. *)
Theorem click_calls_each_at_most_once (E : Env)
    (existingEnclave : option EnclaveFullInfo) (st : ModalState) :
  let tr := (clickRun E existingEnclave st).2 in
  (length (List.filter isCreateEnclaveCall tr) ≤ 1)%nat
  ∧ (length (List.filter isRunStarlarkScriptCall tr) ≤ 1)%nat
  ∧ (length (List.filter isOnCloseCall tr) ≤ 1)%nat
  ∧ (length (List.filter isNavigateCall tr) ≤ 1)%nat
  ∧ ∀ ev pending, ev ∈ tr → pendingState ev = Some pending →
      error pending = None.
Proof.
  destruct existingEnclave as [existing|]; click_cases E.
  all: split_and!; try (simpl; lia).
  all: intros ev pending Hin Hp; in_trace Hin; subst ev; simpl in Hp;
       by simplify_eq.
Qed.

(** A click on Run ends without an error exactly when it has closed the
    dialog, which it does exactly when it navigates; and it ends with the
    loading flag as it found it, unless it has called [createEnclave],
    after which the flag is off. *)
Theorem click_ends_clean_iff_closed (E : Env)
    (existingEnclave : option EnclaveFullInfo) (st : ModalState) :
  let out := clickRun E existingEnclave st in
  (error out.1 = None ↔ existsb isOnCloseCall out.2 = true)
  ∧ existsb isNavigateCall out.2 = existsb isOnCloseCall out.2
  ∧ isLoading out.1
    = isLoading st && negb (existsb isCreateEnclaveCall out.2).
Proof.
  destruct existingEnclave as [existing|]; click_cases E.
  all: split_and!; try done; try (by rewrite andb_true_r);
       try (by rewrite andb_false_r).
Qed.

(** ** The exported script *)

(** With the visualiser mounted in a state reached from the mount of the
    modal by additions, moves and layouts, whatever script a click on Run
    submits was generated from that state's nodes and data, from the
    dependency edges of that data, and from the [existingEnclave] prop
    (not from an enclave created by the click); with an existing enclave
    the submission is the first thing the click does. *)
Theorem run_submits_script_of_current_graph
    (backendCreate : string -> string -> bool -> Result CreateEnclaveResponse string)
    (backendRun : EnclaveFullInfo -> string -> Result LogsIterator Thrown)
    (existingEnclave : option EnclaveFullInfo) (v : Viewport) (g : DagreGraph)
    (evs : list UserEvent) (ms : ModalState) :
  let st := (stepAll (g, (mountModal existingEnclave v).1) evs).2 in
  let script :=
    generateStarlarkFromGraph (nodes st)
      (flattenDependencies (getNodeDependencies (data st))) (data st)
      existingEnclave in
  let E := mountedEnv backendCreate backendRun existingEnclave st in
  (∀ enclave submitted pending settled,
     RunStarlarkScriptCall enclave submitted pending settled
     ∈ (clickRun E existingEnclave ms).2 →
     submitted = script)
  ∧ (∀ existing, existingEnclave = Some existing →
       (clickRun E existingEnclave ms).2 !! 0%nat
       = Some (RunStarlarkScriptCall existing script (setError None ms)
                 (backendRun existing script))).
Proof.
  intros st script E.
  assert (Hscript : ∀ n handle, visualiserRef E n = Some handle →
                                getStarlark handle tt = script).
  { intros n handle [= <-]. unfold script. simpl.
    f_equal. apply insync_reachable. }
  split.
  - clearbody E.
    destruct existingEnclave as [existing|]; click_cases E.
    all: intros enclave submitted pending settled Hin; in_trace Hin.
    all: simplify_eq; eauto.
  - intros existing ->.
    pose proof (Hscript 0%nat _ eq_refl) as Hexported. simpl in Hexported.
    unfold clickRun, handleRun, runOnEnclave. simpl. rewrite Hexported.
    by destruct (backendRun existing script).
Qed.

End FurtherProperties.

(** ** The further properties on the concrete world *)

(** Without the hypothesis on lengths two different edges can share
    their identifier. *)
Example edge_ids_can_collide :
  edge_id (dependencyEdge "c" "a-b") = edge_id (dependencyEdge "b-c" "a")
  ∧ dependencyEdge "c" "a-b" ≠ dependencyEdge "b-c" "a".
Proof. split; [reflexivity | discriminate]. Qed.

(** After a move back to the same view a new node can land on an
    earlier one. *)
Example insertion_after_move_can_stack :
  position <$> nodes (dispatchAll (C := sampleCollaborators) emptyVisualiser
                        [AddServiceNode "A"; AddServiceNode "B";
                         Move sampleViewport; AddServiceNode "C"])
  = [{| x := 440; y := 40 |}; {| x := 440; y := 40 |}; {| x := 420; y := 20 |}].
Proof. reflexivity. Qed.

(** Far enough from the origin the step of 20 units is below the
    precision of a double, and two insertions in a row land on the same
    position. *)
Example insertions_coincide_far_out :
  position <$> nodes (dispatchAll (C := sampleCollaborators)
                        (dispatch (C := sampleCollaborators) emptyVisualiser
                           (Move {| vx := 0x1p+70; vy := 0x1p+70; zoom := 1 |}))
                        [AddServiceNode "A"; AddServiceNode "B"])
  = [{| x := (- 0x1p+70)%float; y := (- 0x1p+70)%float |};
     {| x := (- 0x1p+70)%float; y := (- 0x1p+70)%float |}].
Proof. reflexivity. Qed.

(** The sample parse is not handed on unchanged, and its record [orphan]
    is why. *)
Lemma filterData_idempotent_and_fixpoint_witness :
  filterData (gs_nodes sampleParse) (gs_data sampleParse) ≠ gs_data sampleParse.
Proof.
  destruct (filterData_idempotent_and_fixpoint (gs_nodes sampleParse)
              (gs_data sampleParse)) as [_ [Hkept _]].
  intros Heq. destruct (Hkept Heq "orphan") as (node & Hin & Hid).
  { eexists. reflexivity. }
  repeat (apply elem_of_cons in Hin as [->|Hin]; [discriminate|]).
  by apply elem_of_nil in Hin.
Defined.

(** The broken sample enclave reports its parse error and starts empty. *)
Lemma initial_state_keys_have_nodes_witness :
  is_Some (initialGraphState (C := sampleCollaborators) (Some "broken")).2
  ∧ gs_nodes (initialGraphState (C := sampleCollaborators) (Some "broken")).1
    = [].
Proof.
  assert (Hreported :
    is_Some (initialGraphState (C := sampleCollaborators) (Some "broken")).2)
    by (eexists; reflexivity).
  split; [exact Hreported|].
  destruct (initial_state_keys_have_nodes (C := sampleCollaborators)
              (Some "broken")) as (_ & _ & Hempty).
  by destruct (Hempty Hreported) as [Hnodes _].
Defined.

(** Three dependencies between one-letter identifiers give three edges
    with three different identifiers. *)
Lemma edge_ids_unique_for_equal_length_ids_witness :
  length (flattenDependencies
            (<["B" := {[ "A" ]}]> (<["C" := {[ "A"; "B" ]}]> ∅))) = 3%nat
  ∧ NoDup (edge_id <$> flattenDependencies
                         (<["B" := {[ "A" ]}]> (<["C" := {[ "A"; "B" ]}]> ∅))).
Proof.
  split; [vm_compute; reflexivity|].
  apply (edge_ids_unique_for_equal_length_ids
           (<["B" := {[ "A" ]}]> (<["C" := {[ "A"; "B" ]}]> ∅)) 1).
  intros to froms from Hto Hfrom.
  apply lookup_insert_Some in Hto as [[_ <-]|[_ Hto]].
  - apply elem_of_singleton in Hfrom as ->. reflexivity.
  - apply lookup_insert_Some in Hto as [[_ <-]|[_ Hto]].
    + apply elem_of_union in Hfrom as [Hfrom|Hfrom];
        apply elem_of_singleton in Hfrom as ->; reflexivity.
    + by rewrite lookup_empty in Hto.
Defined.

(** Do Layout on a canvas with one node, whose refit arrives at the
    viewport (5, 6): the counter, which two insertions had brought to 2,
    is back at 1. *)
Lemma onLayout_frame_witness :
  nodes (dispatchAll (C := sampleCollaborators) emptyVisualiser
           [AddServiceNode "A"; AddServiceNode "B"]) ≠ []
  ∧ insertOffset (dispatchAll (C := sampleCollaborators) emptyVisualiser
                    [AddServiceNode "A"; AddServiceNode "B"]) = 2
  ∧ insertOffset
      (onLayout (C := sampleCollaborators) emptyGraph
         (Some {| vx := 5; vy := 6; zoom := 1 |})
         (dispatchAll (C := sampleCollaborators) emptyVisualiser
            [AddServiceNode "A"; AddServiceNode "B"])).2 = 1.
Proof.
  split_and!; [discriminate | reflexivity |].
  destruct (onLayout_frame (C := sampleCollaborators) emptyGraph
              (Some {| vx := 5; vy := 6; zoom := 1 |})
              (dispatchAll (C := sampleCollaborators) emptyVisualiser
                 [AddServiceNode "A"; AddServiceNode "B"]))
    as (_ & _ & _ & _ & Hrefit & _).
  by destruct (Hrefit ltac:(discriminate) _ eq_refl) as [_ Hcounter].
Defined.

(** After adding a service [S] to the sample enclave and laying out, the
    record of [S] has its node. *)
Lemma records_always_have_nodes_witness :
  is_Some (data (stepAll (C := sampleCollaborators)
                   (emptyGraph,
                    (mountModal (C := sampleCollaborators) (Some "e1")
                       sampleViewport).1)
                   [Act (AddServiceNode "S");
                    DoLayout (Some sampleViewport)]).2 !! "S")
  ∧ ∃ node,
      node ∈ nodes (stepAll (C := sampleCollaborators)
                      (emptyGraph,
                       (mountModal (C := sampleCollaborators) (Some "e1")
                          sampleViewport).1)
                      [Act (AddServiceNode "S");
                       DoLayout (Some sampleViewport)]).2
      ∧ node_id node = "S".
Proof.
  assert (Hrecord :
    is_Some (data (stepAll (C := sampleCollaborators)
                     (emptyGraph,
                      (mountModal (C := sampleCollaborators) (Some "e1")
                         sampleViewport).1)
                     [Act (AddServiceNode "S");
                      DoLayout (Some sampleViewport)]).2 !! "S"))
    by (eexists; vm_compute; reflexivity).
  split; [exact Hrecord|].
  apply (records_always_have_nodes (C := sampleCollaborators) (Some "e1")
           sampleViewport emptyGraph
           [Act (AddServiceNode "S"); DoLayout (Some sampleViewport)]
           "S" Hrecord).
Defined.

(** Three insertions in a row on the empty canvas. *)
Lemma insertions_are_staggered_witness :
  forallb isAdd [AddServiceNode "A"; AddArtifactNode "B"; AddServiceNode "C"]
  = true
  ∧ position <$> nodes (dispatchAll (C := sampleCollaborators) emptyVisualiser
                          [AddServiceNode "A"; AddArtifactNode "B";
                           AddServiceNode "C"])
    = [{| x := 460; y := 60 |}; {| x := 440; y := 40 |};
       {| x := 420; y := 20 |}].
Proof.
  split; [reflexivity|].
  rewrite (insertions_are_staggered (C := sampleCollaborators) emptyVisualiser
             [AddServiceNode "A"; AddArtifactNode "B"; AddServiceNode "C"]
             eq_refl).
  reflexivity.
Defined.

(** A successful run on the existing enclave [e1]. *)
Lemma run_success_closes_and_navigates_witness :
  RunStarlarkScriptCall (T := sampleTypes) "e1" "def run(plan): pass"
    initialModalState (Ok ["line"])
  ∈ (clickRun (C := sampleCollaborators) healthyEnv (Some "e1")
       initialModalState).2
  ∧ error (clickRun (C := sampleCollaborators) healthyEnv (Some "e1")
             initialModalState).1 = None.
Proof.
  assert (Hin : RunStarlarkScriptCall (T := sampleTypes) "e1"
                  "def run(plan): pass" initialModalState (Ok ["line"])
                ∈ (clickRun (C := sampleCollaborators) healthyEnv (Some "e1")
                     initialModalState).2)
    by apply list_elem_of_here.
  split; [exact Hin|].
  by destruct (run_success_closes_and_navigates (C := sampleCollaborators)
                 healthyEnv (Some "e1") initialModalState _ _ _ _ Hin)
    as [Hclean _].
Defined.

(** A rejected run on the existing enclave [e1]. *)
Lemma run_failure_reports_and_stays_witness :
  RunStarlarkScriptCall (T := sampleTypes) "e1" "def run(plan): pass"
    initialModalState (Err (Rejected (T := sampleTypes) "connection lost"))
  ∈ (clickRun (C := sampleCollaborators) failingRunEnv (Some "e1")
       initialModalState).2
  ∧ error (clickRun (C := sampleCollaborators) failingRunEnv (Some "e1")
             initialModalState).1 = Some "connection lost".
Proof.
  assert (Hin : RunStarlarkScriptCall (T := sampleTypes) "e1"
                  "def run(plan): pass" initialModalState
                  (Err (Rejected (T := sampleTypes) "connection lost"))
                ∈ (clickRun (C := sampleCollaborators) failingRunEnv
                     (Some "e1") initialModalState).2)
    by apply list_elem_of_here.
  split; [exact Hin|].
  by destruct (run_failure_reports_and_stays (C := sampleCollaborators)
                 failingRunEnv (Some "e1") initialModalState _ _ _ _ Hin)
    as [Hreported _].
Defined.

(** On a new enclave the script runs on the enclave just created. *)
Lemma new_enclave_run_uses_created_enclave_witness :
  RunStarlarkScriptCall (T := sampleTypes) "e42" "def run(plan): pass"
    initialModalState (Ok ["line"])
  ∈ (clickRun (C := sampleCollaborators) healthyEnv None initialModalState).2
  ∧ (clickRun (C := sampleCollaborators) healthyEnv None
       initialModalState).2 !! 0%nat
    = Some (CreateEnclaveCall "" "info" true
              {| isLoading := true; error := None |} (Ok sampleCreated)).
Proof.
  assert (Hin : RunStarlarkScriptCall (T := sampleTypes) "e42"
                  "def run(plan): pass" initialModalState (Ok ["line"])
                ∈ (clickRun (C := sampleCollaborators) healthyEnv None
                     initialModalState).2)
    by apply list_elem_of_further, list_elem_of_here.
  split; [exact Hin|].
  by destruct (new_enclave_run_uses_created_enclave (C := sampleCollaborators)
                 healthyEnv initialModalState _ _ _ _ Hin) as [Hcreated _].
Defined.

(** The visualiser goes away while the enclave is being created. *)
Lemma handle_lost_during_creation_witness :
  visualiserRef unmountingEnv 0%nat = Some sampleHandle
  ∧ createEnclave unmountingEnv "" "info" true = Ok sampleCreated
  ∧ visualiserRef unmountingEnv 1%nat = None
  ∧ clickRun (C := sampleCollaborators) unmountingEnv None initialModalState
    = ({| isLoading := false; error := Some "TypeError" |},
       [CreateEnclaveCall "" "info" true
          {| isLoading := true; error := None |} (Ok sampleCreated)]).
Proof.
  split_and!; [reflexivity | reflexivity | reflexivity |].
  apply (handle_lost_during_creation (C := sampleCollaborators) unmountingEnv
           initialModalState sampleHandle "e42");
    reflexivity.
Defined.

(** While the creation of the sample enclave is pending, the error of
    an earlier attempt is off the screen. *)
Lemma click_calls_each_at_most_once_witness :
  CreateEnclaveCall (T := sampleTypes) "" "info" true
    {| isLoading := true; error := None |} (Ok sampleCreated)
  ∈ (clickRun (C := sampleCollaborators) healthyEnv None
       {| isLoading := false; error := Some "earlier failure" |}).2
  ∧ error {| isLoading := true; error := None |} = None.
Proof.
  assert (Hin : CreateEnclaveCall (T := sampleTypes) "" "info" true
                  {| isLoading := true; error := None |} (Ok sampleCreated)
                ∈ (clickRun (C := sampleCollaborators) healthyEnv None
                     {| isLoading := false;
                        error := Some "earlier failure" |}).2)
    by apply list_elem_of_here.
  split; [exact Hin|].
  destruct (click_calls_each_at_most_once (C := sampleCollaborators)
              healthyEnv None
              {| isLoading := false; error := Some "earlier failure" |})
    as (_ & _ & _ & _ & Hpending).
  apply (Hpending _ _ Hin). reflexivity.
Defined.

(** A click on Run right after the sample enclave has been opened. *)
Lemma run_submits_script_of_current_graph_witness :
  (clickRun (C := sampleCollaborators)
     (mountedEnv (G := sampleGenerator) (fun _ _ _ => Ok sampleCreated)
        (fun _ _ => Ok ["line"]) (Some "e1")
        (mountModal (C := sampleCollaborators) (Some "e1") sampleViewport).1)
     (Some "e1") initialModalState).2 !! 0%nat
  = Some (RunStarlarkScriptCall (T := sampleTypes) "e1" "unbalanced"
            initialModalState (Ok ["line"])).
Proof.
  destruct (run_submits_script_of_current_graph (C := sampleCollaborators)
              (G := sampleGenerator) (fun _ _ _ => Ok sampleCreated)
              (fun _ _ => Ok ["line"]) (Some "e1") sampleViewport emptyGraph []
              initialModalState) as [_ Hfirst].
  apply (Hfirst "e1" eq_refl).
Defined.
